(** * Polling waits of the OpenShift resource wrappers

    A shallow embedding of the wait operations of [ocp_resources/machine_set.py]
    and [resources/virtual_machine.py]: the methods are state-passing
    computations over a world that holds the wrapper object, the number of
    API calls made so far, a clock in whole seconds and the log. A loop takes
    fuel, the number of passes it may make. *)

From Stdlib Require Import ZArith Lia.
From stdpp Require Import base option list strings pretty gmap.

Local Open Scope string_scope.
Local Open Scope nat_scope.
Local Open Scope list_scope.

(** ** Exceptions, results and the world *)

(** What a request to the cluster can raise, the kind of the resource being
    known to the client: urllib3's [ProtocolError], or an HTTP error of the
    dynamic client with its status code. *)
Inductive api_error : Type :=
| api_protocol_error
| api_exception (status : nat).

Inductive exn : Type :=
| TimeoutExpiredError
| ResourceNotFoundError
| ProtocolError
| ApiException (status : nat)
| AttributeError (attr : string)
| KeyError (key : string)
| IndexError
| TypeError.

Definition exn_of_api (e : api_error) : exn :=
  match e with
  | api_protocol_error => ProtocolError
  | api_exception status => ApiException status
  end.

Inductive result (A : Type) : Type :=
| Ret (a : A)
| Raise (e : exn)
| OutOfFuel.
Arguments Ret {A} a.
Arguments Raise {A} e.
Arguments OutOfFuel {A}.

Inductive log_level : Type := INFO | ERROR | DEBUG | WARNING.

Record world (O : Type) : Type := World {
  this : O;
  calls : nat;
  clock : nat;
  logs : list (log_level * string)
}.
Arguments World {O} this calls clock logs.
Arguments this {O} w.
Arguments calls {O} w.
Arguments clock {O} w.
Arguments logs {O} w.

(** A method of an object of type [O] returning an [A]. *)
Definition M (O A : Type) : Type := world O → result A * world O.

Definition ret {O A} (a : A) : M O A := λ w, (Ret a, w).

Definition raise {O A} (e : exn) : M O A := λ w, (Raise e, w).

Definition bind {O A B} (m : M O A) (k : A → M O B) : M O B := λ w,
  match m w with
  | (Ret a, w1) => k a w1
  | (Raise e, w1) => (Raise e, w1)
  | (OutOfFuel, w1) => (OutOfFuel, w1)
  end.

Notation "x <- m ;; k" := (bind m (λ x, k))
  (at level 100, m at next level, right associativity,
   format "'[v' x  <-  m  ;;  '/' k ']'").
Notation "m ;;; k" := (bind m (λ _, k))
  (at level 100, right associativity).

(** [try: m except caught: handler]. *)
Definition try_except {O A} (m : M O A) (caught : exn → bool) (handler : M O A) : M O A := λ w,
  match m w with
  | (Raise e, w1) => if caught e then handler w1 else (Raise e, w1)
  | r => r
  end.

Definition get_self {O} : M O O := λ w, (Ret (this w), w).

Definition log {O} (level : log_level) (msg : string) : M O unit := λ w,
  (Ret (), World (this w) (calls w) (clock w) (logs w ++ [(level, msg)])).

Definition time_sleep {O} (seconds : nat) (w : world O) : world O :=
  World (this w) (calls w) (clock w + seconds) (logs w).

(** The same world [d] seconds later, and an outcome reached [d] seconds later. *)
Definition shift_clock {O} (d : nat) (w : world O) : world O :=
  World (this w) (calls w) (clock w + d) (logs w).

Definition shifted {O A} (d : nat) (outcome : result A * world O) : result A * world O :=
  (fst outcome, shift_clock d (snd outcome)).

(** A computation that never assigns to the wrapper. *)
Definition keeps_self {O A} (m : M O A) : Prop := ∀ w, this (snd (m w)) = this w.

(** A computation that knows the clock only through the time that passes
    while it runs: started [d] seconds later it does the same, [d] seconds later. *)
Definition time_invariant {O A} (m : M O A) : Prop :=
  ∀ d w, m (shift_clock d w) = shifted d (m w).

(** One request to the cluster: the [calls w]-th answer of the API, which takes
    [cost (calls w)] seconds to arrive. *)
Definition api_call {O I} (responses : nat → api_error + I) (cost : nat → nat) : M O I := λ w,
  let w1 := World (this w) (S (calls w)) (clock w + cost (calls w)) (logs w) in
  match responses (calls w) with
  | inl e => (Raise (exn_of_api e), w1)
  | inr i => (Ret i, w1)
  end.

(** ** TimeoutSampler *)

(** Modelled from the spec: [TimeoutSampler] of [utils.py], which is not part of
    the sources at hand. Its keyword arguments are those of the call sites; its
    iteration follows section 4.1 of the specification. *)
Record TimeoutSampler (O T : Type) : Type := {
  timeout : nat;
  sleep : nat;
  exceptions : exn → bool;
  func : M O T
}.
Arguments timeout {O T} t.
Arguments sleep {O T} t.
Arguments exceptions {O T} t.
Arguments func {O T} t.

(** [exceptions=ProtocolError]. *)
Definition only_ProtocolError : exn → bool := λ e,
  match e with ProtocolError => true | _ => false end.

(** What a pass of the loop leaves: the end of the loop with its outcome, or
    the world in which the next pass starts. *)
Inductive step (O R : Type) : Type :=
| Stop (r : result R) (w : world O)
| Next (w : world O).
Arguments Stop {O R} r w.
Arguments Next {O R} w.

(** Modelled from the spec: step (d) and (e) of the loop, the deadline check
    followed by the sleep. *)
Definition check_deadline {O T R} (samples : TimeoutSampler O T) (t0 : nat) (w : world O) : step O R :=
  if timeout samples <=? clock w - t0
  then Stop (Raise TimeoutExpiredError) w
  else Next (time_sleep (sleep samples) w).

(** Modelled from the spec: one pass through steps (a) to (e). The body of the
    consuming [for] loop runs at the yield; it answers [Some r] when it returns
    [r] from the enclosing method and [None] when it asks for the next sample.
    An exception of the body is not the probe's: it is never filtered. *)
Definition sample_once {O T R} (samples : TimeoutSampler O T) (t0 : nat)
    (body : T → M O (option R)) (w : world O) : step O R :=
  match func samples w with
  | (Ret v, w1) =>
      match body v w1 with
      | (Ret (Some r), w2) => Stop (Ret r) w2
      | (Ret None, w2) => check_deadline samples t0 w2
      | (Raise e, w2) => Stop (Raise e) w2
      | (OutOfFuel, w2) => Stop OutOfFuel w2
      end
  | (Raise e, w1) =>
      if exceptions samples e then check_deadline samples t0 w1 else Stop (Raise e) w1
  | (OutOfFuel, w1) => Stop OutOfFuel w1
  end.

(** Modelled from the spec: the loop of step 2, at most [fuel] passes of it. *)
Fixpoint sample_loop {O T R} (fuel : nat) (samples : TimeoutSampler O T) (t0 : nat)
    (body : T → M O (option R)) (w : world O) : result R * world O :=
  match fuel with
  | 0 => (OutOfFuel, w)
  | S fuel' =>
      match sample_once samples t0 body w with
      | Stop r w1 => (r, w1)
      | Next w1 => sample_loop fuel' samples t0 body w1
      end
  end.

(** Modelled from the spec: [for sample in samples: body], the start timestamp
    being taken when the iteration begins. *)
Definition for_each_sample {O T R} (fuel : nat) (samples : TimeoutSampler O T)
    (body : T → M O (option R)) : M O R := λ w,
  sample_loop fuel samples (clock w) body w.

(** The world after [n] probes that were each followed by the sleep, whatever
    the probes answered. *)
Definition after_retries {O T} (samples : TimeoutSampler O T) (n : nat) (w : world O) : world O :=
  Nat.iter n (λ w0, time_sleep (sleep samples) (snd (func samples w0))) w.

(** The seconds that the [n] requests from number [from] on take. *)
Fixpoint spent (cost : nat → nat) (from n : nat) : nat :=
  match n with
  | 0 => 0
  | S n' => cost from + spent cost (S from) n'
  end.

(** A world seen from another one: [rebase b w] is what [w], counted from
    nothing (no request made, clock at 0, empty log), is when counted from
    what [b] holds already. *)
Definition rebase {O} (b w : world O) : world O :=
  World (this w) (calls b + calls w) (clock b + clock w) (logs b ++ logs w).

(** The wrapper of [w] with nothing behind it. *)
Definition afresh {O} (w : world O) : world O := World (this w) 0 0 [].

(** The answers of the cluster from request [from] on. *)
Definition from_request {A} (from : nat) (answers : nat → A) : nat → A :=
  λ i, answers (from + i).

(** [m], run on what [b] holds already, does what [m0] does when run on
    nothing, the outcome counted from [b]. *)
Definition relocates {O A} (b : world O) (m m0 : M O A) : Prop :=
  ∀ w, m (rebase b w) = (fst (m0 w), rebase b (snd (m0 w))).

(** The world after [n] passes none of which ended the loop. *)
Fixpoint advance {O T R} (n : nat) (samples : TimeoutSampler O T) (t0 : nat)
    (body : T → M O (option R)) (w : world O) : option (world O) :=
  match n with
  | 0 => Some w
  | S n' =>
      match sample_once samples t0 body w with
      | Stop _ _ => None
      | Next w1 => advance n' samples t0 body w1
      end
  end.

(** ** Python values *)

Inductive pyval : Type :=
| PyNone
| PyBool (b : bool)
| PyInt (z : Z)
| PyStr (s : string).

#[global] Instance pyval_eq_dec : EqDecision pyval.
Proof. solve_decision. Defined.

(** [bool(v)]. *)
Definition truthy (v : pyval) : bool :=
  match v with
  | PyNone => false
  | PyBool b => b
  | PyInt z => negb (z =? 0)%Z
  | PyStr s => negb (String.eqb s "")
  end.

(** Truth value of an integer field that may be missing ([None]). *)
Definition truthy_int (v : option Z) : bool :=
  match v with
  | Some z => negb (z =? 0)%Z
  | None => false
  end.

(** [str(v)] of an integer field that may be missing. *)
Definition str_int (v : option Z) : string :=
  match v with
  | Some z => pretty z
  | None => "None"
  end.

(** A manifest as the wrappers build it: a plain value or a dict of manifests. *)
#[warnings="-register-all"]
Inductive pyobj : Type :=
| Val (v : pyval)
| Dict (d : gmap string pyobj).

(** A dict display [{k1: v1, k2: v2, ...}]: the items are stored from left to
    right, so that of two equal keys the later one stays. *)
Definition dict_display (items : list (string * pyobj)) : gmap string pyobj :=
  foldl (λ d item, <[item.1 := item.2]> d) ∅ items.

(** [o[k1][k2]...], [None] where a key is missing or a value is no dict. *)
Fixpoint lookup_path (path : list string) (o : pyobj) : option pyobj :=
  match path with
  | [] => Some o
  | key :: rest =>
      match o with
      | Dict d => match d !! key with
                  | Some o' => lookup_path rest o'
                  | None => None
                  end
      | Val _ => None
      end
  end.

Fixpoint starts_with (needle hay : string) : bool :=
  match needle, hay with
  | EmptyString, _ => true
  | String a needle', String b hay' => Ascii.eqb a b && starts_with needle' hay'
  | String _ _, EmptyString => false
  end.

(** [needle in hay] on strings. *)
Fixpoint contains (needle hay : string) : bool :=
  starts_with needle hay ||
  match hay with
  | EmptyString => false
  | String _ hay' => contains needle hay'
  end.

(** ** ocp_resources/machine_set.py *)

Module MachineSet.

(** The [status] stanza of the resource as the API returns it. *)
Module Instance.
Record status_t : Type := {
  replicas : option Z;
  readyReplicas : option Z;
  availableReplicas : option Z
}.
Record t : Type := { status : option status_t }.
End Instance.

(** The attributes [__init__] sets on the wrapper. *)
Record t : Type := {
  name : string;
  namespace : string;
  replicas : Z;
  cluster_name : string;
  machine_role : string;
  machine_type : string;
  provider_spec : gmap string pyval
}.

Section Methods.
(** [self.instance] of the base class: one read of the resource from the
    cluster, answered by the API. *)
Variable instance_at : nat → api_error + Instance.t.
Variable cost : nat → nat.
(** The errors that a [TimeoutSampler] built without [exceptions] retries: a
    matter of its constructor, which is not part of the sources at hand. *)
Variable default_exceptions : exn → bool.

Definition instance : M t Instance.t := api_call instance_at cost.

Definition status_of (attr : string) (i : Instance.t) : M t Instance.status_t :=
  match Instance.status i with
  | Some st => ret st
  | None => raise (AttributeError attr)
  end.

Definition available_replicas : M t (option Z) :=
  i <- instance ;; st <- status_of "availableReplicas" i ;; ret (Instance.availableReplicas st).

Definition ready_replicas : M t (option Z) :=
  i <- instance ;; st <- status_of "readyReplicas" i ;; ret (Instance.readyReplicas st).

Definition desired_replicas : M t (option Z) :=
  i <- instance ;; st <- status_of "replicas" i ;; ret (Instance.replicas st).

(** [TimeoutSampler(wait_timeout=timeout, sleep=sleep, func=lambda: self.ready_replicas)]:
    no [exceptions] are given. *)
Definition samples (timeout sleep : nat) : TimeoutSampler t (option Z) :=
  {| timeout := timeout; sleep := sleep; exceptions := default_exceptions;
     func := ready_replicas |}.

(** The body of the [for] loop. *)
Definition reached (ready_replicas : option Z) : M t (option bool) :=
  if truthy_int ready_replicas then
    desired <- desired_replicas ;;
    if bool_decide (ready_replicas = desired) then ret (Some true) else ret None
  else ret None.

Definition is_TimeoutExpiredError (e : exn) : bool :=
  match e with TimeoutExpiredError => true | _ => false end.

Definition failure_message (name : string) (ready desired : option Z) : string :=
  "Machine-set " +:+ name +:+
  " replicas failed to reach into 'ready' state, actual ready replicas: " +:+
  str_int ready +:+ ", desired replicas: " +:+ str_int desired.

(** The [except TimeoutExpiredError] clause. *)
Definition on_timeout : M t bool :=
  self <- get_self ;;
  ready <- ready_replicas ;;
  desired <- desired_replicas ;;
  log ERROR (failure_message (name self) ready desired) ;;;
  ret false.

Definition wait_for_replicas (fuel : nat) (timeout sleep : nat) : M t bool :=
  try_except
    (for_each_sample fuel (samples timeout sleep) reached)
    is_TimeoutExpiredError
    on_timeout.
End Methods.

Section Manifest.
(** Of the base class: [api_group] is [ApiGroup.MACHINE_OPENSHIFT_IO],
    [yaml_file] the attribute its [__init__] sets, [super_to_dict] its
    [to_dict] and [update_at] the answers to [self.update(resource_dict=body)]. *)
Variable api_group : string.
Variable yaml_file : option string.
Variable super_to_dict : M t (gmap string pyobj).
Variable instance_at : nat → api_error + Instance.t.
Variable update_at : gmap string pyobj → nat → api_error + unit.
Variable cost : nat → nat.
Variable default_exceptions : exn → bool.

(** [f"{self.api_group}/{name}"]. *)
Definition label (name : string) : string := api_group +:+ "/" +:+ name.

(** [f"{self.cluster_name}-{self.machine_role}"]. *)
Definition machineset_name (self : t) : string :=
  cluster_name self +:+ "-" +:+ machine_role self.

Definition metadata_labels (self : t) : gmap string pyobj :=
  dict_display
    [(label "cluster-api-cluster", Val (PyStr (cluster_name self)));
     (label "cluster-api-machine-role", Val (PyStr (machine_role self)));
     (label "cluster-api-machine-type", Val (PyStr (machine_type self)))].

Definition match_labels (self : t) : gmap string pyobj :=
  dict_display
    [(label "cluster-api-cluster", Val (PyStr (cluster_name self)));
     (label "cluster-api-machineset", Val (PyStr (machineset_name self)))].

Definition template_labels (self : t) : gmap string pyobj :=
  dict_display
    [(label "cluster-api-cluster", Val (PyStr (cluster_name self)));
     (label "cluster-api-machine-role", Val (PyStr (machine_role self)));
     (label "cluster-api-machine-type", Val (PyStr (machine_type self)));
     (label "cluster-api-machineset", Val (PyStr (machineset_name self)))].

Definition spec_of (self : t) : gmap string pyobj :=
  dict_display
    [("replicas", Val (PyInt (replicas self)));
     ("selector", Dict (dict_display [("matchLabels", Dict (match_labels self))]));
     ("template",
      Dict (dict_display
              [("metadata", Dict (dict_display [("labels", Dict (template_labels self))]));
               ("spec", Dict (dict_display
                                [("providerSpec", Dict (Val <$> provider_spec self))]))]))].

Definition truthy_str (v : option string) : bool :=
  match v with
  | Some s => negb (String.eqb s "")
  | None => false
  end.

Definition to_dict : M t (gmap string pyobj) :=
  res <- super_to_dict ;;
  self <- get_self ;;
  if truthy_str yaml_file then ret res
  else
    match res !! "metadata" with
    | None => raise (KeyError "metadata")
    | Some (Val _) => raise TypeError
    | Some (Dict metadata) =>
        let res := <["metadata" := Dict (<["labels" := Dict (metadata_labels self)]> metadata)]> res in
        ret (<["spec" := Dict (spec_of self)]> res)
    end.

Definition update (body : gmap string pyobj) : M t unit := api_call (update_at body) cost.

Definition scale_message (desired : option Z) (replicas : Z) : string :=
  "Scale machine-set from " +:+ str_int desired +:+ " replicas to " +:+ pretty replicas
  +:+ " replicas".

Definition scale_replicas (fuel : nat) (replicas : Z) (wait_timeout sleep : nat) (wait : bool)
    : M t bool :=
  body <- super_to_dict ;;
  let body := <["spec" := Dict (dict_display [("replicas", Val (PyInt replicas))])]> body in
  desired <- desired_replicas instance_at cost ;;
  log INFO (scale_message desired replicas) ;;;
  update body ;;;
  if wait then wait_for_replicas instance_at cost default_exceptions fuel wait_timeout sleep
  else ret true.
End Manifest.

End MachineSet.

(** ** resources/virtual_machine.py *)

(** [a == b] on Python values: [True == 1] and [False == 0] hold. *)
Definition py_eq (a b : pyval) : bool :=
  match a, b with
  | PyNone, PyNone => true
  | PyBool x, PyBool y => bool_decide (x = y)
  | PyInt x, PyInt y => (x =? y)%Z
  | PyBool x, PyInt y | PyInt y, PyBool x => (Z.b2z x =? y)%Z
  | PyStr x, PyStr y => String.eqb x y
  | _, _ => false
  end.

(** [str(v)] of a boolean field that may be missing. *)
Definition str_bool (v : option bool) : string :=
  match v with
  | Some true => "True"
  | Some false => "False"
  | None => "None"
  end.

Module VirtualMachine.

Module Instance.
(** [status["ready"]] is [None] when the key is missing. *)
Record status_t : Type := { ready : option bool }.
Record t : Type := { status : option status_t }.
End Instance.

Record t : Type := {
  kind : string;
  name : string;
  namespace : string
}.

Section Methods.
(** The cluster: [self.api().get(field_selector=..., namespace=...)] answers
    the [items] of a list, [self.instance] one resource and
    [self.client.client.request] nothing of interest. *)
Variable get_at : nat → api_error + list Instance.t.
Variable instance_at : nat → api_error + Instance.t.
Variable request_at : nat → api_error + unit.
Variable cost : nat → nat.
(** [self.vmi.wait_deleted()], inherited from the base class. *)
Variable vmi_wait_deleted : M t bool.

Definition api_get : M t (list Instance.t) := api_call get_at cost.
Definition instance : M t Instance.t := api_call instance_at cost.
Definition request : M t unit := api_call request_at cost.

Definition ready_message (self : t) : string :=
  "Check if " +:+ kind self +:+ " " +:+ name self +:+ " is ready".

Definition ready : M t (option bool) :=
  self <- get_self ;;
  log INFO (ready_message self) ;;;
  i <- instance ;;
  match Instance.status i with
  | Some _ =>
      i' <- instance ;;
      match Instance.status i' with
      | Some st => ret (Instance.ready st)
      | None => raise TypeError
      end
  | None => ret None
  end.

Definition samples (timeout : nat) : TimeoutSampler t (list Instance.t) :=
  {| timeout := timeout; sleep := 1; exceptions := only_ProtocolError; func := api_get |}.

(** The body of the [for] loop; [items] stands for [sample.items]. *)
Definition reached (status : option bool) (items : list Instance.t) : M t (option unit) :=
  match items with
  | _ :: _ =>
      r <- ready ;;
      if bool_decide (r = status) then ret (Some ()) else ret None
  | [] => ret None
  end.

Definition wait_message (self : t) (status : option bool) : string :=
  "Wait for " +:+ kind self +:+ " " +:+ name self +:+ " status to be " +:+ str_bool status.

Definition wait_for_status (fuel : nat) (status : option bool) (timeout : nat) : M t unit :=
  self <- get_self ;;
  log INFO (wait_message self status) ;;;
  for_each_sample fuel (samples timeout) (reached status).

Definition stop (fuel : nat) (timeout : nat) (wait : bool) : M t (option bool) :=
  request ;;;
  if wait then
    wait_for_status fuel None timeout ;;;
    deleted <- vmi_wait_deleted ;;
    ret (Some deleted)
  else ret None.
End Methods.

Section Start.
Variable get_at : nat → api_error + list Instance.t.
Variable instance_at : nat → api_error + Instance.t.
Variable request_at : nat → api_error + unit.
Variable cost : nat → nat.

Definition start (fuel : nat) (timeout : nat) (wait : bool) : M t unit :=
  request request_at cost ;;;
  if wait then wait_for_status get_at instance_at cost fuel (Some true) timeout
  else ret ().
End Start.

End VirtualMachine.

Module Pod.
Record t : Type := { name : string }.
End Pod.

Module VirtualMachineInstance.

(** Items read with [iface["interfaceName"]], [None] when the key is missing. *)
Record interface_t : Type := {
  interfaceName : option string;
  ipAddress : option string
}.

Record migration_state_t : Type := { targetPod : option string }.

Module Instance.
Record status_t : Type := {
  interfaces : option (list interface_t);
  migrationState : option migration_state_t;
  conditions : option (list (gmap string pyval))
}.
Record t : Type := { uid : string; status : option status_t }.
End Instance.

Record t : Type := {
  kind : string;
  name : string;
  namespace : string
}.

Section Methods.
Variable instance_at : nat → api_error + Instance.t.
(** [Pod.get(dyn_client, namespace, label_selector)], already a list. *)
Variable pods_at : string → string → nat → api_error + list Pod.t.
Variable cost : nat → nat.

Definition instance : M t Instance.t := api_call instance_at cost.

Definition status_of (attr : string) (i : Instance.t) : M t Instance.status_t :=
  match Instance.status i with
  | Some st => ret st
  | None => raise (AttributeError attr)
  end.

Definition interfaces : M t (list interface_t) :=
  i <- instance ;;
  st <- status_of "interfaces" i ;;
  match Instance.interfaces st with
  | Some l => ret l
  | None => raise TypeError
  end.

(** [for pod in pods: if migration_state.targetPod == pod.name: return pod]. *)
Fixpoint pod_named (target : option string) (pods : list Pod.t) : option Pod.t :=
  match pods with
  | [] => None
  | pod :: rest =>
      if bool_decide (target = Some (Pod.name pod)) then Some pod
      else pod_named target rest
  end.

Definition virt_launcher_pod : M t Pod.t :=
  self <- get_self ;;
  i <- instance ;;
  pods <- api_call (pods_at (namespace self)
            ("kubevirt.io=virt-launcher,kubevirt.io/created-by=" +:+ Instance.uid i)) cost ;;
  i' <- instance ;;
  st <- status_of "migrationState" i' ;;
  match Instance.migrationState st with
  | Some migration_state =>
      match pod_named (targetPod migration_state) pods with
      | Some pod => ret pod
      | None => raise ResourceNotFoundError
      end
  | None =>
      match pods !! 0 with
      | Some pod => ret pod
      | None => raise IndexError
      end
  end.

(** The dict comprehension: the items of every condition with a true
    [lastTransitionTime], a later condition overriding an earlier one. *)
Definition active_condition (conditions : list (gmap string pyval)) : gmap string pyval :=
  foldl (λ acc condition,
           if truthy (default PyNone (condition !! "lastTransitionTime"))
           then condition ∪ acc else acc)
        ∅ conditions.

Definition get_vmi_active_condition : M t (gmap string pyval) :=
  i <- instance ;;
  st <- status_of "conditions" i ;;
  match Instance.conditions st with
  | Some conditions => ret (active_condition conditions)
  | None => raise TypeError
  end.

(** [sample[key]]. *)
Definition subscript (sample : gmap string pyval) (key : string) : M t pyval :=
  match sample !! key with
  | Some v => ret v
  | None => raise (KeyError key)
  end.

(** [sample.get(key)]. *)
Definition dict_get (sample : gmap string pyval) (key : string) : pyval :=
  default PyNone (sample !! key).

(** The body of the [for] loop of [wait_for_vmi_condition_pause_status]. *)
Definition reached (pause : bool) (sample : gmap string pyval) : M t (option unit) :=
  paused <- (if pause
             then reason <- subscript sample "reason" ;;
                  ret (py_eq reason (PyStr "PausedByUser"))
             else ret false) ;;
  if paused : bool then ret (Some ())
  else if negb (pause && truthy (dict_get sample "reason")) then ret (Some ())
  else ret None.

Definition samples (timeout : nat) : TimeoutSampler t (gmap string pyval) :=
  {| timeout := timeout; sleep := 1; exceptions := only_ProtocolError;
     func := get_vmi_active_condition |}.

Definition wait_for_vmi_condition_pause_status (fuel : nat) (pause : bool) (timeout : nat)
    : M t unit :=
  for_each_sample fuel (samples timeout) (reached pause).

(** The list comprehension of [interface_ip]. *)
Fixpoint iface_ip (interface : string) (ifaces : list interface_t) : list (option string) :=
  match ifaces with
  | [] => []
  | iface :: rest =>
      if bool_decide (interfaceName iface = Some interface)
      then ipAddress iface :: iface_ip interface rest
      else iface_ip interface rest
  end.

Definition interface_ip (interface : string) : M t (option string) :=
  ifaces <- interfaces ;;
  match iface_ip interface ifaces with
  | ip :: _ => ret ip
  | [] => ret None
  end.
End Methods.

Section Console.
Variable instance_at : nat → api_error + Instance.t.
Variable pods_at : string → string → nat → api_error + list Pod.t.
(** [pod.execute(command, container)] and [pod.log(container)] of [Pod]. *)
Variable execute_at : Pod.t → list string → string → nat → api_error + string.
Variable log_at : Pod.t → string → nat → api_error + string.
Variable request_at : nat → api_error + unit.
Variable cost : nat → nat.
(** [wait_for_status(status, timeout, stop_status)] of the base class. *)
Variable wait_for_status : string → nat → option string → M t unit.

(** [f"{self.namespace}_{self.name}"]. *)
Definition domain_name (self : t) : string := namespace self +:+ "_" +:+ name self.

Definition virsh (subcommand : string) : M t string :=
  pod <- virt_launcher_pod instance_at pods_at cost ;;
  self <- get_self ;;
  api_call (execute_at pod ["virsh"; subcommand; domain_name self] "compute") cost.

Definition get_xml : M t string := virsh "dumpxml".

Definition get_domstate : M t string := virsh "domstate".

Definition domstate_samples (timeout : nat) : TimeoutSampler t string :=
  {| timeout := timeout; sleep := 1; exceptions := only_ProtocolError; func := get_domstate |}.

Definition pause_status (pause : bool) : string := if pause then "paused" else "running".

(** The body of the [for] loop of [wait_for_domstate_pause_status]. *)
Definition domstate_reached (pause : bool) (sample : string) : M t (option unit) :=
  if contains (pause_status pause) sample then ret (Some ()) else ret None.

Definition wait_for_domstate_pause_status (fuel : nat) (pause : bool) (timeout : nat) : M t unit :=
  for_each_sample fuel (domstate_samples timeout) (domstate_reached pause).

Definition pause_message (self : t) (pause : bool) : string :=
  "Wait until " +:+ kind self +:+ " " +:+ name self +:+ " is "
  +:+ (if pause then "Paused" else "Unpuased").

Definition wait_for_pause_status (fuel : nat) (pause : bool) (timeout : nat) : M t unit :=
  self <- get_self ;;
  log INFO (pause_message self pause) ;;;
  wait_for_domstate_pause_status fuel pause timeout ;;;
  wait_for_vmi_condition_pause_status instance_at cost fuel pause timeout.

Definition request : M t unit := api_call request_at cost.

Definition pause (fuel : nat) (timeout : nat) (wait : bool) : M t unit :=
  request ;;;
  if wait then wait_for_pause_status fuel true timeout else ret ().

Definition unpause (fuel : nat) (timeout : nat) (wait : bool) : M t unit :=
  request ;;;
  if wait then wait_for_pause_status fuel false timeout else ret ().

Definition RUNNING : string := "Running".
Definition SCHEDULING : string := "Scheduling".

(** The [except TimeoutExpiredError] clause of [wait_until_running]; a pod
    object is always true, so that [if virt_pod] always holds. *)
Definition on_timeout (logs : bool) : M t unit :=
  if negb logs then raise TimeoutExpiredError
  else
    virt_pod <- virt_launcher_pod instance_at pods_at cost ;;
    log DEBUG (Pod.name virt_pod +:+ " *****LOGS*****") ;;;
    text <- api_call (log_at virt_pod "compute") cost ;;
    log DEBUG text ;;;
    raise TimeoutExpiredError.

Definition wait_until_running (timeout : nat) (logs : bool) (stop_status : option string)
    : M t unit :=
  try_except (wait_for_status RUNNING timeout stop_status)
    MachineSet.is_TimeoutExpiredError
    (on_timeout logs).
End Console.

End VirtualMachineInstance.

(** ** Concrete clusters

    Small scripted clusters on which the methods can be run. *)

Module Scenarios.

(** A sampler that retries no error when it is given no [exceptions], and
    one that retries every error. *)
Definition retries_nothing : exn → bool := λ _, false.
Definition retries_everything : exn → bool := λ _, true.

(** Every request is answered at once. *)
Definition instant : nat → nat := λ _, 0.

Definition started {O} (self : O) : world O := World self 0 0 [].

Definition workers : MachineSet.t :=
  {| MachineSet.name := "workers";
     MachineSet.namespace := "openshift-machine-api";
     MachineSet.replicas := 2;
     MachineSet.cluster_name := "c1";
     MachineSet.machine_role := "worker";
     MachineSet.machine_type := "worker";
     MachineSet.provider_spec := ∅ |}.

Definition machineset (desired ready : option Z) : MachineSet.Instance.t :=
  {| MachineSet.Instance.status :=
       Some {| MachineSet.Instance.replicas := desired;
               MachineSet.Instance.readyReplicas := ready;
               MachineSet.Instance.availableReplicas := ready |} |}.

(** No machine of two ever becomes ready. *)
Definition never_ready : nat → api_error + MachineSet.Instance.t :=
  λ _, inr (machineset (Some 2%Z) (Some 0%Z)).

(** The same cluster, whose API server fails from the fourth request on. *)
Definition never_ready_then_down : nat → api_error + MachineSet.Instance.t :=
  λ i, if i <? 3 then never_ready i else inl (api_exception 500).

(** Both machines become ready too late, before the fourth read. *)
Definition ready_too_late : nat → api_error + MachineSet.Instance.t :=
  λ i, if i <? 3 then never_ready i else inr (machineset (Some 2%Z) (Some 2%Z)).

(** The second machine becomes ready before the third read of the resource. *)
Definition ready_at_third_read : nat → api_error + MachineSet.Instance.t :=
  λ i, if i <? 2 then inr (machineset (Some 2%Z) (Some 1%Z))
       else inr (machineset (Some 2%Z) (Some 2%Z)).

(** The API server answers 404 to every request. *)
Definition not_found {I} : nat → api_error + I := λ _, inl (api_exception 404).

(** The connection breaks on every request. *)
Definition broken_connection {I} : nat → api_error + I := λ _, inl api_protocol_error.


Definition vm : VirtualMachine.t :=
  {| VirtualMachine.kind := "VirtualMachine";
     VirtualMachine.name := "vm-1";
     VirtualMachine.namespace := "default" |}.

(** A virtual machine whose [status] says whether it is ready. *)
Definition machine (ready : option bool) : VirtualMachine.Instance.t :=
  {| VirtualMachine.Instance.status := Some {| VirtualMachine.Instance.ready := ready |} |}.

(** A virtual machine whose [status] is not populated. *)
Definition bare_machine : VirtualMachine.Instance.t :=
  {| VirtualMachine.Instance.status := None |}.

(** Every request is answered with the same resource. *)
Definition always {I} (i : I) : nat → api_error + I := λ _, inr i.

Definition deleted_at_once : M VirtualMachine.t bool := ret true.

(** The machine is reported ready from the fifth request on. *)
Definition ready_at_fifth_request : nat → api_error + VirtualMachine.Instance.t :=
  λ i, if i <? 4 then inr (machine (Some false)) else inr (machine (Some true)).

Definition vmi : VirtualMachineInstance.t :=
  {| VirtualMachineInstance.kind := "VirtualMachineInstance";
     VirtualMachineInstance.name := "vm-1";
     VirtualMachineInstance.namespace := "default" |}.

(** The condition of a running instance: it carries no [reason]. *)
Definition ready_condition : gmap string pyval :=
  list_to_map [("type", PyStr "Ready"); ("status", PyStr "True");
               ("lastProbeTime", PyNone);
               ("lastTransitionTime", PyStr "2020-05-05T10:00:00Z")].

Definition paused_condition : gmap string pyval :=
  list_to_map [("type", PyStr "Paused"); ("status", PyStr "True");
               ("reason", PyStr "PausedByUser");
               ("lastTransitionTime", PyStr "2020-05-05T10:05:00Z")].

Definition eth0 : VirtualMachineInstance.interface_t :=
  {| VirtualMachineInstance.interfaceName := Some "eth0";
     VirtualMachineInstance.ipAddress := Some "10.128.0.7" |}.

Definition eth1 : VirtualMachineInstance.interface_t :=
  {| VirtualMachineInstance.interfaceName := Some "eth1";
     VirtualMachineInstance.ipAddress := Some "192.168.1.7" |}.

Definition guest (conditions : list (gmap string pyval))
    (migration : option VirtualMachineInstance.migration_state_t)
    : VirtualMachineInstance.Instance.t :=
  {| VirtualMachineInstance.Instance.uid := "5612af70";
     VirtualMachineInstance.Instance.status :=
       Some {| VirtualMachineInstance.Instance.interfaces := Some [eth0; eth1];
               VirtualMachineInstance.Instance.migrationState := migration;
               VirtualMachineInstance.Instance.conditions := Some conditions |} |}.

Definition launcher (name : string) : Pod.t := {| Pod.name := name |}.

(** The pods that [Pod.get] lists, whatever the selector. *)
Definition listing (pods : list Pod.t) : string → string → nat → api_error + list Pod.t :=
  λ _ _ _, inr pods.

(** [virsh domstate] says paused during the first pass of a wait and running
    afterwards (a pass of the domstate wait takes four requests). *)
Definition resumes_after_first_pass : Pod.t → list string → string → nat → api_error + string :=
  λ _ _ _ i, inr (if i <? 4 then "paused" else "running").

(** The instance still carries its Paused condition; the connection breaks at
    the ninth request, the first read of the conditions once the domain
    runs again under [resumes_after_first_pass]. *)
Definition paused_with_one_broken_read : nat → api_error + VirtualMachineInstance.Instance.t :=
  λ i, if i =? 8 then inl api_protocol_error else inr (guest [paused_condition] None).

Definition pod_says (text : string) : Pod.t → string → nat → api_error + string :=
  λ _ _ _, inr text.

(** A base [wait_for_status] that runs into its deadline after [timeout] seconds. *)
Definition never_running : string → nat → option string → M VirtualMachineInstance.t unit :=
  λ _ timeout _ w, (Raise TimeoutExpiredError, time_sleep timeout w).

(** The manifest of the base class for [workers], with a label of its own. *)
Definition base_manifest : gmap string pyobj :=
  dict_display
    [("apiVersion", Val (PyStr "machine.openshift.io/v1beta1"));
     ("kind", Val (PyStr "MachineSet"));
     ("metadata",
      Dict (dict_display
              [("name", Val (PyStr "workers"));
               ("namespace", Val (PyStr "openshift-machine-api"));
               ("labels", Dict (dict_display [("team", Val (PyStr "qe"))]))]))].

Definition manifest_of_base : M MachineSet.t (gmap string pyobj) := ret base_manifest.

(** A base class whose manifest lacks [metadata]. *)
Definition manifest_without_metadata : M MachineSet.t (gmap string pyobj) :=
  ret (dict_display [("kind", Val (PyStr "MachineSet"))]).

(** Every update is accepted. *)
Definition accepted : gmap string pyobj → nat → api_error + unit := λ _ _, inr ().

(** A machine set scaled down to no replica: nothing is ready, nothing is wanted. *)
Definition scaled_to_zero : nat → api_error + MachineSet.Instance.t :=
  always (machineset (Some 0%Z) (Some 0%Z)).

End Scenarios.

(** * Properties *)

(** ** The sampling loop *)

(** The first number at which a decidable property holds is at most any
    number at which it holds. *)
Lemma least_below (D : nat → Prop) :
  (∀ k, Decision (D k)) → ∀ m, D m → ∃ n, n ≤ m ∧ D n ∧ ∀ k, k < n → ¬ D k.
Proof.
  intros Hdec m Hm.
  assert (Hsearch : ∀ b, (∃ n, n < b ∧ D n ∧ ∀ k, k < n → ¬ D k) ∨ (∀ k, k < b → ¬ D k)).
  { induction b as [|b [(n & ? & ? & ?)|Hnone]].
    - right. intros k Hk. lia.
    - left. exists n. split; [lia|done].
    - destruct (Hdec b) as [Hb|Hb].
      + left. exists b. split; [lia|]. split; [done|]. exact Hnone.
      + right. intros k Hk. destruct (decide (k = b)) as [->|]; [done|].
        apply Hnone. lia. }
  destruct (Hsearch (S m)) as [(n & ? & ? & ?)|Hnone].
  - exists n. split; [lia|done].
  - destruct (Hnone m); [lia|done].
Qed.

Lemma spent_snoc cost from n :
  spent cost from (S n) = spent cost from n + cost (from + n).
Proof.
  revert from. induction n as [|n IH]; intros from.
  - simpl. replace (from + 0) with from by lia. lia.
  - change (spent cost from (S (S n))) with (cost from + spent cost (S from) (S n)).
    rewrite IH. simpl. replace (S (from + n)) with (from + S n) by lia. lia.
Qed.

Section Sampler.
Context {O T : Type}.
Implicit Types (samples : TimeoutSampler O T) (w : world O).

Lemma sample_loop_stop {R} fuel samples t0 (body : T → M O (option R)) w r w1 :
  sample_once samples t0 body w = Stop r w1 →
  sample_loop (S fuel) samples t0 body w = (r, w1).
Proof. intros H. simpl. by rewrite H. Qed.

Lemma sample_loop_next {R} fuel samples t0 (body : T → M O (option R)) w w1 :
  sample_once samples t0 body w = Next w1 →
  sample_loop (S fuel) samples t0 body w = sample_loop fuel samples t0 body w1.
Proof. intros H. simpl. by rewrite H. Qed.

(** Passes that do not end the loop only use up fuel. *)
Lemma sample_loop_advance {R} n fuel samples t0 (body : T → M O (option R)) w w_n :
  advance n samples t0 body w = Some w_n →
  sample_loop (n + fuel) samples t0 body w = sample_loop fuel samples t0 body w_n.
Proof.
  revert w. induction n as [|n IH]; intros w H; simpl in *.
  - by inversion H.
  - destruct (sample_once samples t0 body w) as [r w1|w1]; [done|].
    by apply IH.
Qed.

Lemma advance_add {R} n m samples t0 (body : T → M O (option R)) w :
  advance (n + m) samples t0 body w
  = advance n samples t0 body w ≫= advance m samples t0 body.
Proof.
  revert w. induction n as [|n IH]; intros w; simpl; [done|].
  destruct (sample_once samples t0 body w); [done|]. apply IH.
Qed.

(** No pass follows one that ended the loop. *)
Lemma advance_past_stop {R} n m samples t0 (body : T → M O (option R)) w w_n r w1 :
  advance n samples t0 body w = Some w_n →
  sample_once samples t0 body w_n = Stop r w1 →
  n < m →
  advance m samples t0 body w = None.
Proof.
  intros Hadv Hstop Hm. replace m with (n + S (m - S n)) by lia.
  rewrite advance_add, Hadv. simpl. by rewrite Hstop.
Qed.

Lemma sample_loop_reaches {R} n fuel samples t0 (body : T → M O (option R)) w w_n r w1 :
  advance n samples t0 body w = Some w_n →
  sample_once samples t0 body w_n = Stop r w1 →
  n < fuel →
  sample_loop fuel samples t0 body w = (r, w1).
Proof.
  intros Hadv Hstop Hlt.
  replace fuel with (n + S (fuel - S n)) by lia.
  rewrite (sample_loop_advance _ _ _ _ _ _ _ Hadv).
  by apply sample_loop_stop.
Qed.

(** A loop that ended did so in one of its passes. *)
Lemma sample_loop_inv {R} fuel samples t0 (body : T → M O (option R)) w r w1 :
  sample_loop fuel samples t0 body w = (r, w1) →
  r ≠ OutOfFuel →
  ∃ n w_n, n < fuel ∧ advance n samples t0 body w = Some w_n ∧
           sample_once samples t0 body w_n = Stop r w1.
Proof.
  revert w. induction fuel as [|fuel IH]; intros w H Hr; simpl in H.
  - inversion H; subst. done.
  - destruct (sample_once samples t0 body w) as [r' w'|w'] eqn:Hstep.
    + inversion H; subst. exists 0, w. split; [lia|]. done.
    + destruct (IH _ H Hr) as (n & w_n & Hn & Hadv & Hstop).
      exists (S n), w_n. split; [lia|]. simpl. rewrite Hstep. done.
Qed.

Lemma sample_once_fatal {R} samples t0 (body : T → M O (option R)) w e w1 :
  func samples w = (Raise e, w1) →
  exceptions samples e = false →
  sample_once samples t0 body w = Stop (Raise e) w1.
Proof. intros Hf He. unfold sample_once. by rewrite Hf, He. Qed.

Lemma sample_once_retry {R} samples t0 (body : T → M O (option R)) w e w1 :
  func samples w = (Raise e, w1) →
  exceptions samples e = true →
  sample_once samples t0 body w = check_deadline samples t0 w1.
Proof. intros Hf He. unfold sample_once. by rewrite Hf, He. Qed.

Lemma sample_once_accept {R} samples t0 (body : T → M O (option R)) w v w1 r w2 :
  func samples w = (Ret v, w1) →
  body v w1 = (Ret (Some r), w2) →
  sample_once samples t0 body w = Stop (Ret r) w2.
Proof. intros Hf Hb. unfold sample_once. by rewrite Hf, Hb. Qed.

Lemma sample_once_reject {R} samples t0 (body : T → M O (option R)) w v w1 w2 :
  func samples w = (Ret v, w1) →
  body v w1 = (Ret None, w2) →
  sample_once samples t0 body w = check_deadline samples t0 w2.
Proof. intros Hf Hb. unfold sample_once. by rewrite Hf, Hb. Qed.

Lemma sample_once_body_raises {R} samples t0 (body : T → M O (option R)) w v w1 e w2 :
  func samples w = (Ret v, w1) →
  body v w1 = (Raise e, w2) →
  sample_once samples t0 body w = Stop (Raise e) w2.
Proof. intros Hf Hb. unfold sample_once. by rewrite Hf, Hb. Qed.

(** A pass that neither returns nor fails moves towards the deadline when
    the sampler sleeps for at least a second and time does not run backwards. *)
Lemma check_deadline_cases {R} samples t0 w :
  (timeout samples ≤ clock w - t0 ∧
     check_deadline (R:=R) samples t0 w = Stop (Raise TimeoutExpiredError) w) ∨
  (clock w - t0 < timeout samples ∧
     check_deadline (R:=R) samples t0 w = Next (time_sleep (sleep samples) w)).
Proof.
  unfold check_deadline.
  destruct (Nat.leb_spec (timeout samples) (clock w - t0)); [left|right]; done.
Qed.

(** When no pass can return or fail, the loop ends with the deadline. *)
Lemma sample_loop_expires {R} samples t0 (body : T → M O (option R)) :
  0 < sleep samples →
  (∀ w, ∃ w1, clock w ≤ clock w1 ∧
              sample_once samples t0 body w = check_deadline samples t0 w1) →
  ∀ fuel w, t0 ≤ clock w → timeout samples - (clock w - t0) < fuel →
    ∃ w', sample_loop fuel samples t0 body w = (Raise TimeoutExpiredError, w').
Proof.
  intros Hsleep Hpass. induction fuel as [|fuel IH]; intros w Ht0 Hfuel; [lia|].
  destruct (Hpass w) as (w1 & Hclock & Hstep).
  destruct (check_deadline_cases (R:=R) samples t0 w1) as [[Hle Hc]|[Hlt Hc]];
    rewrite Hc in Hstep.
  - exists w1. by apply sample_loop_stop.
  - rewrite (sample_loop_next _ _ _ _ _ _ Hstep).
    apply IH; simpl; lia.
Qed.


(** With a sampler that sleeps, a probe and a body that return or raise, and a
    clock that does not run backwards, the loop ends within [timeout] passes
    after the first: the fuel is then of no consequence. *)
Lemma sample_loop_terminates {R} samples t0 (body : T → M O (option R)) :
  0 < sleep samples →
  (∀ w, clock w ≤ clock (snd (func samples w)) ∧ fst (func samples w) ≠ OutOfFuel) →
  (∀ v w, clock w ≤ clock (snd (body v w)) ∧ fst (body v w) ≠ OutOfFuel) →
  ∀ fuel w, t0 ≤ clock w → timeout samples - (clock w - t0) < fuel →
    fst (sample_loop fuel samples t0 body w) ≠ OutOfFuel.
Proof.
  intros Hsleep Hfunc Hbody. induction fuel as [|fuel IH]; intros w Ht0 Hfuel; [lia|].
  simpl. unfold sample_once.
  destruct (Hfunc w) as [Hclock Hr].
  destruct (func samples w) as [[v|e|] w1]; simpl in *; [| |done].
  - destruct (Hbody v w1) as [Hclock' Hr'].
    destruct (body v w1) as [[[r|]|e|] w2]; simpl in *; try done.
    destruct (check_deadline_cases (R:=R) samples t0 w2) as [[_ ->]|[Hlt ->]]; [done|].
    apply IH; simpl; lia.
  - destruct (exceptions samples e); [|done].
    destruct (check_deadline_cases (R:=R) samples t0 w1) as [[_ ->]|[Hlt ->]]; [done|].
    apply IH; simpl; lia.
Qed.

(** *** Probes that raise retryable errors only *)

Lemma after_retries_S samples n w :
  after_retries samples (S n) w
  = time_sleep (sleep samples) (snd (func samples (after_retries samples n w))).
Proof. done. Qed.

(** Each retryable error met before the deadline is absorbed: the loop sleeps
    and probes again. *)
Lemma advance_retries {R} n samples t0 (body : T → M O (option R)) w :
  (∀ k, k < n → ∃ e, fst (func samples (after_retries samples k w)) = Raise e ∧
                     exceptions samples e = true) →
  (∀ k, k < n → clock (snd (func samples (after_retries samples k w))) - t0
                < timeout samples) →
  advance n samples t0 body w = Some (after_retries samples n w).
Proof.
  induction n as [|n IH]; intros Hretry Hearly; [done|].
  pose proof (advance_add n 1 samples t0 body w) as Hadd.
  replace (n + 1) with (S n) in Hadd by lia.
  rewrite Hadd, IH by (intros k Hk; (apply Hretry || apply Hearly); lia).
  rewrite after_retries_S.
  destruct (Hretry n) as (e & He & Hexc); [lia|].
  specialize (Hearly n (Nat.lt_succ_diag_r n)).
  destruct (func samples (after_retries samples n w)) as [r w1] eqn:Hf.
  cbn [fst snd] in He, Hearly |- *. subst r.
  cbn [mbind option_bind advance].
  rewrite (sample_once_retry _ _ _ _ _ _ Hf Hexc).
  unfold check_deadline. by rewrite (proj2 (Nat.leb_gt _ _) Hearly).
Qed.

(** The loop ends at the first probe after which the deadline has passed,
    with TimeoutExpiredError and in the world that this probe left. *)
Lemma sample_loop_retries_expire {R} n fuel samples t0 (body : T → M O (option R)) w :
  (∀ k, k ≤ n → ∃ e, fst (func samples (after_retries samples k w)) = Raise e ∧
                     exceptions samples e = true) →
  (∀ k, k < n → clock (snd (func samples (after_retries samples k w))) - t0
                < timeout samples) →
  timeout samples ≤ clock (snd (func samples (after_retries samples n w))) - t0 →
  n < fuel →
  sample_loop fuel samples t0 body w
  = (Raise TimeoutExpiredError, snd (func samples (after_retries samples n w))).
Proof.
  intros Hretry Hearly Hlate Hfuel.
  apply (sample_loop_reaches n fuel _ _ _ w (after_retries samples n w)); [|clear Hearly|done].
  - apply advance_retries; [|done]. intros k Hk. apply Hretry. lia.
  - destruct (Hretry n) as (e & He & Hexc); [done|].
    destruct (func samples (after_retries samples n w)) as [r w1] eqn:Hf.
    simpl in He, Hlate |- *. subst r.
    rewrite (sample_once_retry _ _ _ _ _ _ Hf Hexc).
    unfold check_deadline. by rewrite (proj2 (Nat.leb_le _ _) Hlate).
Qed.

(** Before the deadline the loop does not end. *)
Lemma sample_loop_retries_go_on {R} fuel samples t0 (body : T → M O (option R)) w :
  (∀ k, k < fuel → ∃ e, fst (func samples (after_retries samples k w)) = Raise e ∧
                        exceptions samples e = true) →
  (∀ k, k < fuel → clock (snd (func samples (after_retries samples k w))) - t0
                   < timeout samples) →
  sample_loop fuel samples t0 body w = (OutOfFuel, after_retries samples fuel w).
Proof.
  intros Hretry Hearly.
  pose proof (sample_loop_advance fuel 0 samples t0 body w _
                (advance_retries fuel samples t0 body w Hretry Hearly)) as Hloop.
  by rewrite Nat.add_0_r in Hloop.
Qed.

(** With a clock that does not run backwards, each retry is at least a sleep
    later. *)
Lemma after_retries_clock samples n w :
  (∀ w0, clock w0 ≤ clock (snd (func samples w0))) →
  clock w + n * sleep samples ≤ clock (after_retries samples n w).
Proof.
  intros Hclock. induction n as [|n IH]; [simpl; lia|].
  rewrite after_retries_S. simpl.
  pose proof (Hclock (after_retries samples n w)). lia.
Qed.
End Sampler.

(** ** Running the methods *)

Lemma exn_of_api_not_timeout e : exn_of_api e ≠ TimeoutExpiredError.
Proof. by destruct e. Qed.

Lemma api_call_inv {O I} (responses : nat → api_error + I) cost (w : world O) r w1 :
  api_call responses cost w = (r, w1) →
  w1 = World (this w) (S (calls w)) (clock w + cost (calls w)) (logs w) ∧
  ((∃ i, responses (calls w) = inr i ∧ r = Ret i) ∨
   (∃ e, responses (calls w) = inl e ∧ r = Raise (exn_of_api e))).
Proof.
  unfold api_call. destruct (responses (calls w)) as [e|i]; intros [= <- <-];
    (split; [done|]); [right|left]; eauto.
Qed.

Ltac run_step :=
  match goal with
  | H : context [api_call ?f ?c ?w] |- _ =>
      let r := fresh "r" in let w1 := fresh "w" in let E := fresh "E" in
      destruct (api_call f c w) as [r w1] eqn:E;
      apply api_call_inv in E as [-> [(? & ? & ->)|(? & ? & ->)]]; simpl in H
  | |- context [api_call ?f ?c ?w] =>
      let r := fresh "r" in let w1 := fresh "w" in let E := fresh "E" in
      destruct (api_call f c w) as [r w1] eqn:E;
      apply api_call_inv in E as [-> [(? & ? & ->)|(? & ? & ->)]]; simpl
  end.

(** ** MachineSet.wait_for_replicas *)

Section MachineSetProperties.
Variable instance_at : nat → api_error + MachineSet.Instance.t.
Variable cost : nat → nat.
Variable default_exceptions : exn → bool.

Local Abbreviation ready_replicas := (MachineSet.ready_replicas instance_at cost).
Local Abbreviation desired_replicas := (MachineSet.desired_replicas instance_at cost).
Local Abbreviation reached := (MachineSet.reached instance_at cost).
Local Abbreviation samples := (MachineSet.samples instance_at cost default_exceptions).
Local Abbreviation on_timeout := (MachineSet.on_timeout instance_at cost).
Local Abbreviation wait_for_replicas :=
  (MachineSet.wait_for_replicas instance_at cost default_exceptions).

Implicit Types (w : world MachineSet.t).

(** A read of a status field leaves the wrapper alone, takes one request and
    cannot raise the sampler's own error. *)
Lemma machineset_status_read_inv attr (field : MachineSet.Instance.status_t → option Z) w r w1 :
  (i <- MachineSet.instance instance_at cost ;;
   st <- MachineSet.status_of attr i ;; ret (field st)) w = (r, w1) →
  w1 = World (this w) (S (calls w)) (clock w + cost (calls w)) (logs w) ∧
  (∀ e, r = Raise e → e ≠ TimeoutExpiredError) ∧ r ≠ OutOfFuel.
Proof.
  unfold bind, MachineSet.instance, MachineSet.status_of, ret, raise. intros H.
  run_step.
  - destruct (MachineSet.Instance.status _); inversion H; subst; repeat split; congruence.
  - inversion H; subst. repeat split; [|done].
    intros e [= <-]. apply exn_of_api_not_timeout.
Qed.

Lemma ready_replicas_inv w r w1 :
  ready_replicas w = (r, w1) →
  w1 = World (this w) (S (calls w)) (clock w + cost (calls w)) (logs w) ∧
  (∀ e, r = Raise e → e ≠ TimeoutExpiredError) ∧ r ≠ OutOfFuel.
Proof. apply machineset_status_read_inv. Qed.

Lemma desired_replicas_inv w r w1 :
  desired_replicas w = (r, w1) →
  w1 = World (this w) (S (calls w)) (clock w + cost (calls w)) (logs w) ∧
  (∀ e, r = Raise e → e ≠ TimeoutExpiredError) ∧ r ≠ OutOfFuel.
Proof. apply machineset_status_read_inv. Qed.

(** What the body of the loop can answer. *)
Lemma machineset_reached_inv ready w r w1 :
  reached ready w = (r, w1) →
  this w1 = this w ∧ logs w1 = logs w ∧
  (∀ e, r = Raise e → e ≠ TimeoutExpiredError) ∧ r ≠ OutOfFuel ∧ r ≠ Ret (Some false) ∧
  (r = Ret (Some true) →
     ∃ z, ready = Some z ∧ z ≠ 0%Z ∧ desired_replicas w = (Ret (Some z), w1)).
Proof.
  unfold MachineSet.reached. destruct (truthy_int ready) eqn:Htruthy.
  - unfold bind at 1. destruct (desired_replicas w) as [d w2] eqn:Hd.
    destruct (desired_replicas_inv _ _ _ Hd) as (-> & Hnt & Hnf).
    destruct d as [d| |].
    + case_bool_decide as Heq; intros [= <- <-]; simpl; repeat split; try done.
      intros _. destruct ready as [z|]; [|done]. exists z.
      simpl in Htruthy. apply negb_true_iff, Z.eqb_neq in Htruthy.
      by subst d.
    + intros [= <- <-]. repeat split; try done. intros e' [= <-]. by apply Hnt.
    + done.
  - intros [= <- <-]. repeat split; done.
Qed.

Lemma wait_for_replicas_unfold fuel timeout sleep w :
  wait_for_replicas fuel timeout sleep w =
  match sample_loop fuel (samples timeout sleep) (clock w) reached w with
  | (Raise TimeoutExpiredError, w1) => on_timeout w1
  | other => other
  end.
Proof.
  unfold MachineSet.wait_for_replicas, try_except, for_each_sample.
  destruct (sample_loop _ _ _ _ _) as [[b|e|] w1]; try done.
  by destruct e.
Qed.

Lemma on_timeout_inv w r w1 :
  on_timeout w = (r, w1) →
  this w1 = this w ∧ r ≠ Raise TimeoutExpiredError ∧ r ≠ Ret true ∧ r ≠ OutOfFuel.
Proof.
  unfold MachineSet.on_timeout, get_self. unfold bind at 1 2.
  destruct (ready_replicas w) as [ready w2] eqn:Hr.
  destruct (ready_replicas_inv _ _ _ Hr) as (-> & Hnt & Hnf).
  destruct ready as [ready|e|]; [|intros [= <- <-]; repeat split; try done..].
  - unfold bind at 1.
    destruct (desired_replicas _) as [desired w3] eqn:Hd.
    destruct (desired_replicas_inv _ _ _ Hd) as (-> & Hnt' & Hnf').
    destruct desired as [desired|e|]; intros [= <- <-]; repeat split; try done.
    intros [= ->]. by eapply Hnt'.
  - intros [= ->]. by eapply Hnt.
Qed.

Lemma on_timeout_later w r w1 : on_timeout w = (r, w1) → clock w ≤ clock w1.
Proof.
  unfold MachineSet.on_timeout, get_self. unfold bind at 1 2.
  destruct (ready_replicas w) as [ready w2] eqn:Hr.
  apply ready_replicas_inv in Hr as (-> & _).
  destruct ready as [ready|e|]; [|intros [= _ <-]; simpl; lia..].
  unfold bind at 1. destruct (desired_replicas _) as [desired w3] eqn:Hd.
  apply desired_replicas_inv in Hd as (-> & _).
  destruct desired as [desired|e|]; intros [= _ <-]; simpl; lia.
Qed.

(** With a sampler that sleeps, the wait ends: more fuel than seconds of
    timeout is enough. *)
Lemma wait_for_replicas_terminates fuel timeout sleep w :
  0 < sleep → timeout < fuel →
  fst (wait_for_replicas fuel timeout sleep w) ≠ OutOfFuel.
Proof.
  intros Hsleep Hfuel. rewrite wait_for_replicas_unfold.
  pose proof (sample_loop_terminates (samples timeout sleep) (clock w) reached) as Hloop.
  specialize (Hloop Hsleep). simpl in Hloop.
  assert (Hend : fst (sample_loop fuel (samples timeout sleep) (clock w) reached w)
                 ≠ OutOfFuel).
  { apply Hloop; [| |lia..].
    - intros w0. destruct (ready_replicas w0) as [r w1] eqn:Hr.
      apply ready_replicas_inv in Hr as (-> & _ & ?). simpl. split; [lia|done].
    - intros v w0. destruct (reached v w0) as [r w1] eqn:Hb.
      pose proof Hb as Hb'. apply machineset_reached_inv in Hb' as (_ & _ & _ & ? & _).
      split; [|done]. simpl. unfold MachineSet.reached in Hb.
      destruct (truthy_int v); [|by inversion Hb].
      unfold bind in Hb. destruct (desired_replicas w0) as [d w2] eqn:Hd.
      apply desired_replicas_inv in Hd as (-> & _).
      destruct d as [d| |]; [destruct (bool_decide _)|..]; inversion Hb; subst; simpl; lia. }
  destruct (sample_loop _ _ _ _ _) as [[b|e|] w1]; simpl in *; [done| |done].
  destruct e; try done.
  destruct (on_timeout w1) as [r w2] eqn:Hh.
  by apply on_timeout_inv in Hh as (_ & _ & _ & ?).
Qed.

(** A pass of the loop that stops does so with the body's [True], with an
    error of the probe or of the body, or with the deadline. *)
Lemma machineset_sample_once_stop_inv timeout sleep t0 w r w1 :
  sample_once (samples timeout sleep) t0 reached w = Stop r w1 →
  (r = Ret true ∧ ∃ z w', ready_replicas w = (Ret (Some z), w') ∧ z ≠ 0%Z ∧
                           desired_replicas w' = (Ret (Some z), w1)) ∨
  (∃ e, r = Raise e ∧ e ≠ TimeoutExpiredError) ∨
  (r = Raise TimeoutExpiredError ∧ timeout ≤ clock w1 - t0).
Proof.
  unfold sample_once. simpl.
  destruct (ready_replicas w) as [v w2] eqn:Hprobe.
  destruct (ready_replicas_inv _ _ _ Hprobe) as (Hw2 & Hnt & Hnf).
  destruct v as [v|e|]; [| |done].
  - destruct (reached v w2) as [b w3] eqn:Hbody.
    destruct (machineset_reached_inv _ _ _ _ Hbody) as (_ & _ & Hbt & Hbf & Hfalse & Htrue).
    destruct b as [[[|]|]|e|]; try done.
    + intros [= <- <-]. left. split; [done|].
      destruct (Htrue eq_refl) as (z & -> & Hz & Hd). eauto.
    + unfold check_deadline. simpl. case_match eqn:Hcheck; [|done].
      intros [= <- <-]. right; right. split; [done|]. by apply Nat.leb_le.
    + intros [= <- <-]. right; left. exists e. split; [done|]. by apply Hbt.
  - destruct (default_exceptions e).
    + unfold check_deadline. simpl. case_match eqn:Hcheck; [|done].
      intros [= <- <-]. right; right. split; [done|]. by apply Nat.leb_le.
    + intros [= <- <-]. right; left. exists e. split; [done|]. by apply Hnt.
Qed.

(** C5: wait_for_replicas returns True at the first yielded value that is
    non-zero and equal to the desired replica count just read, no further
    sample being taken after it (no pass of the loop follows the matching
    one, and the world is left as the read of the desired count left it); and
    it returns True only when some yielded value satisfies this predicate. *)
Theorem wait_for_replicas_true_at_first_match fuel timeout sleep w :
  (∀ n w_n z w1 w2,
     advance n (samples timeout sleep) (clock w) reached w = Some w_n →
     ready_replicas w_n = (Ret (Some z), w1) →
     z ≠ 0%Z →
     desired_replicas w1 = (Ret (Some z), w2) →
     (n < fuel → wait_for_replicas fuel timeout sleep w = (Ret true, w2)) ∧
     calls w2 = calls w_n + 2 ∧
     (∀ m, n < m → advance m (samples timeout sleep) (clock w) reached w = None)) ∧
  (∀ w', wait_for_replicas fuel timeout sleep w = (Ret true, w') →
     ∃ n w_n z w1,
       n < fuel ∧
       advance n (samples timeout sleep) (clock w) reached w = Some w_n ∧
       ready_replicas w_n = (Ret (Some z), w1) ∧ z ≠ 0%Z ∧
       desired_replicas w1 = (Ret (Some z), w')).
Proof.
  split.
  - intros n w_n z w1 w2 Hadv Hready Hz Hdesired.
    assert (Hstop : sample_once (samples timeout sleep) (clock w) reached w_n
                    = Stop (Ret true) w2).
    { eapply sample_once_accept; [exact Hready|].
      unfold MachineSet.reached. simpl.
      apply Z.eqb_neq in Hz. rewrite Hz. simpl.
      unfold bind. rewrite Hdesired. by rewrite bool_decide_eq_true_2. }
    split; [|split].
    + intros Hlt. rewrite wait_for_replicas_unfold.
      by rewrite (sample_loop_reaches _ _ _ _ _ _ _ _ _ Hadv Hstop Hlt).
    + apply ready_replicas_inv in Hready as (-> & _).
      apply desired_replicas_inv in Hdesired as (-> & _). simpl. lia.
    + intros m Hm. by eapply advance_past_stop.
  - intros w'. rewrite wait_for_replicas_unfold.
    destruct (sample_loop _ _ _ _ _) as [r w1] eqn:Hloop. intros Hres.
    assert (r = Ret true ∧ w1 = w') as [-> ->].
    { destruct r as [b|e|]; [by inversion Hres| |done].
      destruct e; try done.
      by apply on_timeout_inv in Hres as (_ & _ & ? & _). }
    apply sample_loop_inv in Hloop as (n & w_n & Hn & Hadv & Hstop); [|done].
    apply machineset_sample_once_stop_inv in Hstop
      as [(_ & z & w2 & Hr & Hz & Hd)|[(e & [=] & _)|([=] & _)]].
    exists n, w_n, z, w2. done.
Qed.


(** C3 (amended): the timeout error never escapes wait_for_replicas; when the
    sampling loop raises it, the method catches it, reads the ready and the
    desired replica counts from the API once more and, if both reads
    succeed, logs the counts just read and returns False. *)
Theorem wait_for_replicas_timeout_returns_false fuel timeout sleep w :
  fst (wait_for_replicas fuel timeout sleep w) ≠ Raise TimeoutExpiredError ∧
  (∀ w1 ready w2 desired w3,
     for_each_sample fuel (samples timeout sleep) reached w
       = (Raise TimeoutExpiredError, w1) →
     ready_replicas w1 = (Ret ready, w2) →
     desired_replicas w2 = (Ret desired, w3) →
     wait_for_replicas fuel timeout sleep w =
       (Ret false,
        World (this w3) (calls w3) (clock w3)
          (logs w3 ++ [(ERROR, MachineSet.failure_message
                                 (MachineSet.name (this w1)) ready desired)]))).
Proof.
  split.
  - rewrite wait_for_replicas_unfold.
    destruct (sample_loop _ _ _ _ _) as [r w1] eqn:Hloop.
    destruct r as [b|e|]; [done| |done].
    destruct e; try done.
    destruct (on_timeout w1) as [r w2] eqn:Hhandler.
    by apply on_timeout_inv in Hhandler as (_ & ? & _ & _).
  - intros w1 ready w2 desired w3 Hloop Hready Hdesired.
    rewrite wait_for_replicas_unfold. unfold for_each_sample in Hloop.
    rewrite Hloop. unfold MachineSet.on_timeout, get_self, bind, log, ret.
    by rewrite Hready, Hdesired.
Qed.
End MachineSetProperties.

(** C5 on a cluster whose second machine becomes ready before the third read:
    the first sample is 1 of 2, the second is 2 of 2 and ends the wait. *)
Lemma wait_for_replicas_true_at_first_match_witness :
  MachineSet.wait_for_replicas Scenarios.ready_at_third_read Scenarios.instant
    Scenarios.retries_nothing 10 300 1
    (Scenarios.started Scenarios.workers)
  = (Ret true, World Scenarios.workers 4 1 []).
Proof.
  apply (proj1 (wait_for_replicas_true_at_first_match
                  Scenarios.ready_at_third_read Scenarios.instant Scenarios.retries_nothing 10 300 1
                  (Scenarios.started Scenarios.workers))
               1 (World Scenarios.workers 2 1 []) 2%Z (World Scenarios.workers 3 1 []));
    [reflexivity|reflexivity|lia|reflexivity|lia].
Defined.


(** C3 as stated fails: on a cluster whose API server fails after the deadline
    has passed, the sampling loop raises TimeoutExpiredError and the method
    neither logs nor returns False, it raises the error of the read made for
    the log message; and so it does whether the sampler retries no error or
    every error, that read being made by the except clause. *)
Lemma wait_for_replicas_timeout_then_api_failure :
  for_each_sample 10
    (MachineSet.samples Scenarios.never_ready_then_down Scenarios.instant
       Scenarios.retries_nothing 2 1)
    (MachineSet.reached Scenarios.never_ready_then_down Scenarios.instant)
    (Scenarios.started Scenarios.workers)
  = (Raise TimeoutExpiredError, World Scenarios.workers 3 2 []) ∧
  MachineSet.wait_for_replicas Scenarios.never_ready_then_down Scenarios.instant
    Scenarios.retries_nothing 10 2 1 (Scenarios.started Scenarios.workers)
  = (Raise (ApiException 500), World Scenarios.workers 4 2 []) ∧
  MachineSet.wait_for_replicas Scenarios.never_ready_then_down Scenarios.instant
    Scenarios.retries_everything 10 2 1 (Scenarios.started Scenarios.workers)
  = (Raise (ApiException 500), World Scenarios.workers 4 2 []).
Proof. repeat split; reflexivity. Qed.

(** C3 (amended) on a cluster where nothing becomes ready within two seconds. *)
Lemma wait_for_replicas_timeout_returns_false_witness :
  MachineSet.wait_for_replicas Scenarios.never_ready Scenarios.instant
    Scenarios.retries_nothing 10 2 1
    (Scenarios.started Scenarios.workers)
  = (Ret false,
     World Scenarios.workers 5 2
       [(ERROR, "Machine-set workers replicas failed to reach into 'ready' state, actual ready replicas: 0, desired replicas: 2")]).
Proof.
  apply (proj2 (wait_for_replicas_timeout_returns_false
                  Scenarios.never_ready Scenarios.instant Scenarios.retries_nothing 10 2 1
                  (Scenarios.started Scenarios.workers))
               (World Scenarios.workers 3 2 []) (Some 0%Z)
               (World Scenarios.workers 4 2 []) (Some 2%Z)
               (World Scenarios.workers 5 2 []));
    reflexivity.
Defined.

(** The counts in the log are those read for the message, not the last
    sampled ones: here every sample was 0 and the log says 2 of 2. *)
Example wait_for_replicas_logs_fresh_counts :
  MachineSet.wait_for_replicas Scenarios.ready_too_late Scenarios.instant
    Scenarios.retries_nothing 10 2 1
    (Scenarios.started Scenarios.workers)
  = (Ret false,
     World Scenarios.workers 5 2
       [(ERROR, "Machine-set workers replicas failed to reach into 'ready' state, actual ready replicas: 2, desired replicas: 2")]).
Proof. reflexivity. Qed.

(** A sampler that does not sleep, on a cluster that answers at once, never
    reaches its deadline: the loop uses up any fuel. *)
Example wait_for_replicas_busy_poll fuel :
  fst (MachineSet.wait_for_replicas Scenarios.never_ready Scenarios.instant
    Scenarios.retries_nothing fuel 2 0
         (Scenarios.started Scenarios.workers))
  = OutOfFuel.
Proof.
  rewrite wait_for_replicas_unfold.
  assert (H : ∀ calls,
            sample_loop fuel (MachineSet.samples Scenarios.never_ready Scenarios.instant
              Scenarios.retries_nothing 2 0) 0
              (MachineSet.reached Scenarios.never_ready Scenarios.instant)
              (World Scenarios.workers calls 0 [])
            = (OutOfFuel, World Scenarios.workers (fuel + calls) 0 [])).
  { induction fuel as [|fuel IH]; intros calls; [done|].
    simpl. unfold sample_once. simpl. unfold time_sleep. simpl.
    rewrite IH. do 2 f_equal. lia. }
  simpl. unfold Scenarios.started. by rewrite H.
Qed.

(** ** VirtualMachine.wait_for_status *)

Section VirtualMachineProperties.
Variable get_at : nat → api_error + list VirtualMachine.Instance.t.
Variable instance_at : nat → api_error + VirtualMachine.Instance.t.
Variable request_at : nat → api_error + unit.
Variable cost : nat → nat.
Variable vmi_wait_deleted : M VirtualMachine.t bool.

Local Abbreviation api_get := (VirtualMachine.api_get get_at cost).
Local Abbreviation ready := (VirtualMachine.ready instance_at cost).
Local Abbreviation reached := (VirtualMachine.reached instance_at cost).
Local Abbreviation samples := (VirtualMachine.samples get_at cost).
Local Abbreviation wait_for_status := (VirtualMachine.wait_for_status get_at instance_at cost).
Local Abbreviation stop :=
  (VirtualMachine.stop get_at instance_at request_at cost vmi_wait_deleted).
(** The world once [wait_for_status] has written its first log line. *)
Local Abbreviation announced status w :=
  (World (this w) (calls w) (clock w)
     (logs w ++ [(INFO, VirtualMachine.wait_message (this w) status)])).

Implicit Types (w : world VirtualMachine.t).

Lemma wait_for_status_unfold fuel status timeout w :
  wait_for_status fuel status timeout w
  = sample_loop fuel (samples timeout) (clock w) (reached status) (announced status w).
Proof. reflexivity. Qed.

(** [ready()] writes one log line and reads the resource once or twice. *)
Lemma vm_ready_inv w r w1 :
  ready w = (r, w1) →
  this w1 = this w ∧ clock w ≤ clock w1 ∧
  logs w1 = logs w ++ [(INFO, VirtualMachine.ready_message (this w))] ∧
  (∀ e, r = Raise e → e ≠ TimeoutExpiredError) ∧ r ≠ OutOfFuel.
Proof.
  unfold VirtualMachine.ready, VirtualMachine.instance, get_self, log, bind, ret, raise.
  intros H. run_step.
  - destruct (VirtualMachine.Instance.status _).
    + run_step.
      * destruct (VirtualMachine.Instance.status _); inversion H; subst; simpl;
          repeat split; (lia || congruence).
      * inversion H; subst; simpl. repeat split; try (lia || congruence).
        intros e [= <-]. apply exn_of_api_not_timeout.
    + inversion H; subst; simpl. repeat split; (lia || congruence).
  - inversion H; subst; simpl. repeat split; try (lia || congruence).
    intros e [= <-]. apply exn_of_api_not_timeout.
Qed.

Lemma vm_reached_inv status items w r w1 :
  reached status items w = (r, w1) →
  this w1 = this w ∧ clock w ≤ clock w1 ∧
  (∀ e, r = Raise e → e ≠ TimeoutExpiredError) ∧ r ≠ OutOfFuel ∧
  (r = Ret (Some ()) → items ≠ [] ∧ ready w = (Ret status, w1)).
Proof.
  unfold VirtualMachine.reached. destruct items as [|item items].
  - intros [= <- <-]. repeat split; done.
  - unfold bind. destruct (ready w) as [v w2] eqn:Hready.
    destruct (vm_ready_inv _ _ _ Hready) as (Hthis & Hclock & _ & Hnt & Hnf).
    destruct v as [v|e|]; [| |done].
    + case_bool_decide as Heq; intros [= <- <-]; repeat split; try done.
      by subst v.
    + intros [= <- <-]. repeat split; try done. intros e' [= <-]. by apply Hnt.
Qed.

(** The loop of [wait_for_status] raises the deadline error only from its
    deadline check. *)
Lemma vm_sample_once_timeout_inv status timeout t0 w w1 :
  sample_once (samples timeout) t0 (reached status) w = Stop (Raise TimeoutExpiredError) w1 →
  timeout ≤ clock w1 - t0.
Proof.
  unfold sample_once. simpl. destruct (api_get w) as [v w2] eqn:Hprobe.
  unfold VirtualMachine.api_get in Hprobe.
  apply api_call_inv in Hprobe as [-> [(items & _ & ->)|(e & _ & ->)]].
  - destruct (reached status items _) as [b w3] eqn:Hbody.
    destruct (vm_reached_inv _ _ _ _ _ Hbody) as (_ & _ & Hbt & _).
    destruct b as [[[]|]|e|]; try done.
    + unfold check_deadline. case_match eqn:Hcheck; [|done].
      intros [= <-]. by apply Nat.leb_le.
    + intros [= -> _]. by destruct (Hbt _ eq_refl).
  - destruct e; simpl; [|done].
    unfold check_deadline. case_match eqn:Hcheck; [|done].
    intros [= <-]. by apply Nat.leb_le.
Qed.

(** The wait ends: its sampler sleeps a second per pass, so more fuel than
    seconds of timeout is enough. *)
Lemma wait_for_status_terminates fuel status timeout w :
  timeout < fuel →
  fst (wait_for_status fuel status timeout w) ≠ OutOfFuel.
Proof.
  intros Hfuel. rewrite wait_for_status_unfold.
  apply sample_loop_terminates; simpl; [lia| | |lia..].
  - intros w0. destruct (api_get w0) as [r w1] eqn:Hprobe.
    unfold VirtualMachine.api_get in Hprobe.
    apply api_call_inv in Hprobe as [-> [(? & _ & ->)|(? & _ & ->)]]; simpl;
      (split; [lia|done]).
  - intros items w0. destruct (reached status items w0) as [r w1] eqn:Hbody.
    apply vm_reached_inv in Hbody as (_ & ? & _ & ? & _). done.
Qed.

(** The worlds that the probes of wait_for_status go through while none of
    them ends the loop: a request and a second of sleep each. *)
Lemma vm_after_retries timeout n w :
  after_retries (samples timeout) n w
  = World (this w) (calls w + n) (clock w + n + spent cost (calls w) n) (logs w).
Proof.
  induction n as [|n IH].
  - destruct w as [self calls clock logs]. unfold after_retries. simpl.
    by rewrite !Nat.add_0_r.
  - rewrite after_retries_S, IH, spent_snoc. simpl.
    unfold VirtualMachine.api_get, api_call, time_sleep. simpl.
    destruct (get_at (calls w + n)); simpl; f_equal; lia.
Qed.

Lemma vm_probe_after_retries timeout n w :
  snd (func (samples timeout) (after_retries (samples timeout) n w))
  = World (this w) (calls w + S n) (clock w + n + spent cost (calls w) (S n)) (logs w) ∧
  (get_at (calls w + n) = inl api_protocol_error →
   fst (func (samples timeout) (after_retries (samples timeout) n w)) = Raise ProtocolError).
Proof.
  rewrite vm_after_retries, spent_snoc. cbn [func VirtualMachine.samples].
  unfold VirtualMachine.api_get, api_call. simpl.
  destruct (get_at (calls w + n)) as [e|items]; simpl.
  - split; [f_equal; lia|]. by intros [= ->].
  - split; [f_equal; lia|done].
Qed.

(** C2: a retryable error of the probe is absorbed and the loop goes on: as
    long as the probes raise retryable errors and the deadline has not
    passed, the loop sleeps and probes again, whatever its consumer is (no
    value is handed to it); it ends at the first probe after which the
    deadline has passed, with TimeoutExpiredError and never with the
    retryable error, and before that it does not end. When the sampler
    sleeps between probes that is within [timeout] retries. For
    wait_for_status, whose retryable error is ProtocolError and which
    sleeps a second: if every read of the list raises ProtocolError the method
    raises TimeoutExpiredError after the first read that ends [timeout]
    seconds or more after its start, having sent these reads and nothing
    else and logged nothing but its first line. *)
Theorem retryable_errors_end_in_timeout :
  (∀ (O T : Type) (s : TimeoutSampler O T) fuel (w : world O),
     (∀ n R (body : T → M O (option R)),
        (∀ k, k ≤ n → ∃ e, fst (func s (after_retries s k w)) = Raise e ∧
                           exceptions s e = true) →
        (∀ k, k < n → clock (snd (func s (after_retries s k w))) - clock w < timeout s) →
        timeout s ≤ clock (snd (func s (after_retries s n w))) - clock w →
        n < fuel →
        for_each_sample fuel s body w
        = (Raise TimeoutExpiredError, snd (func s (after_retries s n w)))) ∧
     (∀ R (body : T → M O (option R)),
        (∀ k, k < fuel → ∃ e, fst (func s (after_retries s k w)) = Raise e ∧
                              exceptions s e = true) →
        (∀ k, k < fuel → clock (snd (func s (after_retries s k w))) - clock w
                         < timeout s) →
        for_each_sample fuel s body w = (OutOfFuel, after_retries s fuel w)) ∧
     ((∀ w0 : world O, ∃ e, fst (func s w0) = Raise e ∧ exceptions s e = true ∧
                            clock w0 ≤ clock (snd (func s w0))) →
      0 < sleep s → timeout s < fuel →
      ∃ n, n ≤ timeout s ∧
           (∀ k, k < n → clock (snd (func s (after_retries s k w))) - clock w
                         < timeout s) ∧
           timeout s ≤ clock (snd (func s (after_retries s n w))) - clock w ∧
           ∀ R (body : T → M O (option R)),
             for_each_sample fuel s body w
             = (Raise TimeoutExpiredError, snd (func s (after_retries s n w))))) ∧
  (∀ fuel status timeout w,
     (∀ i, calls w ≤ i → get_at i = inl api_protocol_error) →
     timeout < fuel →
     ∃ n, n ≤ timeout ∧
          (∀ k, k < n → k + spent cost (calls w) (S k) < timeout) ∧
          timeout ≤ n + spent cost (calls w) (S n) ∧
          wait_for_status fuel status timeout w
          = (Raise TimeoutExpiredError,
             World (this w) (calls w + S n) (clock w + n + spent cost (calls w) (S n))
               (logs w ++ [(INFO, VirtualMachine.wait_message (this w) status)]))).
Proof.
  split.
  - intros O T s fuel w. split; [|split].
    + intros n R body Hretry Hearly Hlate Hfuel.
      by apply sample_loop_retries_expire.
    + intros R body Hretry Hearly. by apply sample_loop_retries_go_on.
    + intros Hprobe Hsleep Hfuel.
      destruct (least_below
                  (λ k, timeout s ≤ clock (snd (func s (after_retries s k w))) - clock w))
        with (m := timeout s) as (n & Hn & Hlate & Hearly).
      { intros k. apply _. }
      { destruct (Hprobe (after_retries s (timeout s) w)) as (_ & _ & _ & Hclock).
        pose proof (after_retries_clock s (timeout s) w) as Hretries.
        assert (clock w + timeout s * sleep s ≤ clock (after_retries s (timeout s) w)).
        { apply Hretries. intros w0. by destruct (Hprobe w0) as (_ & _ & _ & ?). }
        nia. }
      exists n. split; [done|].
      assert (Hearly' : ∀ k, k < n →
                clock (snd (func s (after_retries s k w))) - clock w < timeout s).
      { intros k Hk. specialize (Hearly k Hk). lia. }
      split; [done|]. split; [done|].
      intros R body. apply sample_loop_retries_expire; [|done|done|lia].
      intros k _. destruct (Hprobe (after_retries s k w)) as (e & ? & ? & _). eauto.
  - intros fuel status timeout w Hget Hfuel.
    destruct (least_below (λ k, timeout ≤ k + spent cost (calls w) (S k)))
      with (m := timeout) as (n & Hn & Hlate & Hearly).
    { intros k. apply _. }
    { lia. }
    exists n. split; [done|].
    assert (Hearly' : ∀ k, k < n → k + spent cost (calls w) (S k) < timeout).
    { intros k Hk. specialize (Hearly k Hk). lia. }
    split; [done|]. split; [done|].
    rewrite wait_for_status_unfold.
    destruct (vm_probe_after_retries timeout n (announced status w)) as [Hworld _].
    cbn [this calls clock logs] in Hworld. rewrite <- Hworld.
    apply (sample_loop_retries_expire n fuel (samples timeout) (clock w) (reached status)
             (announced status w)); [| | |lia].
    + intros k _.
      destruct (vm_probe_after_retries timeout k (announced status w)) as [_ Hraise].
      exists ProtocolError. split; [|done]. apply Hraise. apply Hget. simpl. lia.
    + intros k Hk.
      destruct (vm_probe_after_retries timeout k (announced status w)) as [-> _].
      specialize (Hearly' k Hk). simpl in Hearly' |- *. lia.
    + rewrite Hworld. simpl in Hlate |- *. lia.
Qed.

(** C6 (amended): if reading the list raises at most ProtocolError and
    ready() always returns, and returns something else than the requested
    status, wait_for_status raises TimeoutExpiredError; it raises that error
    only once the deadline has passed; and when some sample has items and
    ready() then equals the requested status, the method returns normally
    at that sample. *)
Theorem wait_for_status_timeout_or_return fuel status timeout w :
  ((∀ i code, get_at i ≠ inl (api_exception code)) →
   (∀ w0, ∃ r w1, ready w0 = (Ret r, w1) ∧ r ≠ status) →
   timeout < fuel →
   ∃ w', wait_for_status fuel status timeout w = (Raise TimeoutExpiredError, w')) ∧
  (∀ w', wait_for_status fuel status timeout w = (Raise TimeoutExpiredError, w') →
         timeout ≤ clock w' - clock w) ∧
  (∀ n w_n item items w1 w2,
     advance n (samples timeout) (clock w) (reached status) (announced status w) = Some w_n →
     api_get w_n = (Ret (item :: items), w1) →
     ready w1 = (Ret status, w2) →
     n < fuel →
     wait_for_status fuel status timeout w = (Ret (), w2)).
Proof.
  split; [|split].
  - intros Hget Hready Hfuel. rewrite wait_for_status_unfold.
    apply sample_loop_expires; simpl; [lia| |lia..].
    intros w0. unfold sample_once. simpl.
    destruct (api_get w0) as [v w1] eqn:Hprobe. unfold VirtualMachine.api_get in Hprobe.
    apply api_call_inv in Hprobe as [Hw1 [(items & _ & ->)|(e & He & ->)]].
    + destruct items as [|item items]; simpl.
      * exists w1. split; [subst w1; simpl; lia|done].
      * destruct (Hready w1) as (r & w2 & Hr & Hne).
        unfold bind. rewrite Hr. rewrite bool_decide_eq_false_2 by done.
        exists w2. apply vm_ready_inv in Hr as (_ & Hclock & _).
        split; [subst w1; simpl in *; lia|done].
    + destruct e as [|code]; [|by destruct (Hget _ _ He)].
      exists w1. split; [subst w1; simpl; lia|done].
  - intros w' Hres. rewrite wait_for_status_unfold in Hres.
    apply sample_loop_inv in Hres as (n & w_n & _ & _ & Hstop); [|done].
    by apply vm_sample_once_timeout_inv in Hstop.
  - intros n w_n item items w1 w2 Hadv Hprobe Hready Hn.
    rewrite wait_for_status_unfold.
    eapply sample_loop_reaches; [exact Hadv| |exact Hn].
    eapply sample_once_accept; [exact Hprobe|].
    unfold VirtualMachine.reached, bind. rewrite Hready.
    by rewrite bool_decide_eq_true_2.
Qed.

(** C8: ready() returns None when the instance it reads has no status, so a
    sample of wait_for_status(status=None) that lists the machine while its
    status is missing ends the wait; stop(wait=True) then goes on to wait
    for the deletion of the instance. *)
Theorem stop_wait_accepts_missing_status fuel timeout w :
  (∀ i, instance_at (calls w) = inr i →
        VirtualMachine.Instance.status i = None →
        ready w = (Ret None,
                   World (this w) (S (calls w)) (clock w + cost (calls w))
                     (logs w ++ [(INFO, VirtualMachine.ready_message (this w))]))) ∧
  (∀ n w_n item items w1 i,
     advance n (samples timeout) (clock w) (reached None) (announced None w) = Some w_n →
     api_get w_n = (Ret (item :: items), w1) →
     instance_at (calls w1) = inr i →
     VirtualMachine.Instance.status i = None →
     n < fuel →
     ∃ w2, wait_for_status fuel None timeout w = (Ret (), w2) ∧
           calls w2 = calls w_n + 2) ∧
  (∀ item items i,
     request_at (calls w) = inr () →
     get_at (S (calls w)) = inr (item :: items) →
     instance_at (S (S (calls w))) = inr i →
     VirtualMachine.Instance.status i = None →
     0 < fuel →
     ∃ w2, stop fuel timeout true w
           = (deleted <- vmi_wait_deleted ;; ret (Some deleted)) w2 ∧
           calls w2 = calls w + 3).
Proof.
  assert (Hready : ∀ w0 i, instance_at (calls w0) = inr i →
            VirtualMachine.Instance.status i = None →
            ready w0 = (Ret None,
                        World (this w0) (S (calls w0)) (clock w0 + cost (calls w0))
                          (logs w0 ++ [(INFO, VirtualMachine.ready_message (this w0))]))).
  { intros w0 i Hi Hst.
    unfold VirtualMachine.ready, VirtualMachine.instance, get_self, log, bind, api_call.
    simpl. by rewrite Hi, Hst. }
  split; [|split].
  - apply Hready.
  - intros n w_n item items w1 i Hadv Hprobe Hi Hst Hn.
    eexists. split.
    + rewrite wait_for_status_unfold.
      eapply sample_loop_reaches; [exact Hadv| |exact Hn].
      eapply sample_once_accept; [exact Hprobe|].
      unfold VirtualMachine.reached, bind. by rewrite (Hready _ _ Hi Hst).
    + unfold VirtualMachine.api_get in Hprobe.
      apply api_call_inv in Hprobe as [-> _]. simpl. lia.
  - intros item items i Hreq Hget Hi Hst Hfuel.
    destruct fuel as [|fuel']; [lia|].
    set (w1 := World (this w) (S (calls w)) (clock w + cost (calls w)) (logs w)).
    assert (∃ w2, wait_for_status (S fuel') None timeout w1 = (Ret (), w2) ∧
                          calls w2 = calls w + 3) as (w2 & Hwait & Hcalls).
    { eexists. split.
      - rewrite wait_for_status_unfold. apply sample_loop_stop.
        eapply sample_once_accept.
        + simpl. unfold VirtualMachine.api_get, api_call. simpl. by rewrite Hget.
        + unfold VirtualMachine.reached, bind. erewrite Hready; [done|exact Hi|exact Hst].
      - simpl. lia. }
    exists w2. split; [|done].
    unfold VirtualMachine.stop, VirtualMachine.request. unfold bind at 1.
    unfold api_call. rewrite Hreq. fold w1. unfold bind at 1. by rewrite Hwait.
Qed.
End VirtualMachineProperties.

(** C2 on a cluster whose connection breaks on every request: with a
    timeout of three seconds the list is read four times, a second apart. *)
Lemma retryable_errors_end_in_timeout_witness :
  VirtualMachine.wait_for_status Scenarios.broken_connection
    (Scenarios.always (Scenarios.machine (Some true))) Scenarios.instant
    10 (Some true) 3 (Scenarios.started Scenarios.vm)
  = (Raise TimeoutExpiredError,
     World Scenarios.vm 4 3 [(INFO, "Wait for VirtualMachine vm-1 status to be True")]).
Proof.
  destruct (proj2 (retryable_errors_end_in_timeout Scenarios.broken_connection
                     (Scenarios.always (Scenarios.machine (Some true))) Scenarios.instant)
                  10 (Some true) 3 (Scenarios.started Scenarios.vm))
    as (n & Hn & _ & Hlate & Hrun); [intros; reflexivity|lia|].
  assert (n = 3) as ->.
  { destruct n as [|[|[|[|n]]]]; simpl in Hlate; lia. }
  exact Hrun.
Defined.

(** The same run, evaluated: four probes in three seconds, none of them
    followed by a call of ready(). *)
Example wait_for_status_broken_connection :
  VirtualMachine.wait_for_status Scenarios.broken_connection
    (Scenarios.always (Scenarios.machine (Some true))) Scenarios.instant
    10 (Some true) 3 (Scenarios.started Scenarios.vm)
  = (Raise TimeoutExpiredError,
     World Scenarios.vm 4 3 [(INFO, "Wait for VirtualMachine vm-1 status to be True")]).
Proof. reflexivity. Qed.

(** C6 as stated fails: the machine is listed by every sample and ready()
    never equals the requested status, because the connection breaks whenever
    ready() reads the resource; the method raises that ProtocolError at the
    first sample and not TimeoutExpiredError. *)
Lemma wait_for_status_ready_raises :
  (∀ w, fst (VirtualMachine.ready Scenarios.broken_connection Scenarios.instant w)
        ≠ Ret (Some true)) ∧
  VirtualMachine.wait_for_status (Scenarios.always [Scenarios.machine (Some false)])
    Scenarios.broken_connection Scenarios.instant 10 (Some true) 5
    (Scenarios.started Scenarios.vm)
  = (Raise ProtocolError,
     World Scenarios.vm 2 0
       [(INFO, "Wait for VirtualMachine vm-1 status to be True");
        (INFO, "Check if VirtualMachine vm-1 is ready")]).
Proof. split; [intros w; discriminate|reflexivity]. Qed.

(** C6 (amended) on a machine that never becomes ready, and on one that is
    reported ready from the second sample on. *)
Lemma wait_for_status_timeout_or_return_witness :
  (∃ w', VirtualMachine.wait_for_status (Scenarios.always [Scenarios.machine (Some false)])
           (Scenarios.always (Scenarios.machine (Some false))) Scenarios.instant
           10 (Some true) 2 (Scenarios.started Scenarios.vm)
         = (Raise TimeoutExpiredError, w')) ∧
  VirtualMachine.wait_for_status (Scenarios.always [Scenarios.machine None])
    Scenarios.ready_at_fifth_request Scenarios.instant
    10 (Some true) 300 (Scenarios.started Scenarios.vm)
  = (Ret (),
     World Scenarios.vm 6 1
       [(INFO, "Wait for VirtualMachine vm-1 status to be True");
        (INFO, "Check if VirtualMachine vm-1 is ready");
        (INFO, "Check if VirtualMachine vm-1 is ready")]).
Proof.
  split.
  - apply (proj1 (wait_for_status_timeout_or_return
                    (Scenarios.always [Scenarios.machine (Some false)])
                    (Scenarios.always (Scenarios.machine (Some false))) Scenarios.instant
                    10 (Some true) 2 (Scenarios.started Scenarios.vm))).
    + intros i code. discriminate.
    + intros w0. eexists _, _. split; [reflexivity|discriminate].
    + lia.
  - apply (proj2 (proj2 (wait_for_status_timeout_or_return
                    (Scenarios.always [Scenarios.machine None])
                    Scenarios.ready_at_fifth_request Scenarios.instant
                    10 (Some true) 300 (Scenarios.started Scenarios.vm)))
                 1
                 (World Scenarios.vm 3 1
                    [(INFO, "Wait for VirtualMachine vm-1 status to be True");
                     (INFO, "Check if VirtualMachine vm-1 is ready")])
                 (Scenarios.machine None) []
                 (World Scenarios.vm 4 1
                    [(INFO, "Wait for VirtualMachine vm-1 status to be True");
                     (INFO, "Check if VirtualMachine vm-1 is ready")]));
      [reflexivity|reflexivity|reflexivity|lia].
Defined.

(** C8 on a machine that is listed while its status is not populated:
    stop(wait=True) takes its first sample as the stopped machine. *)
Lemma stop_wait_accepts_missing_status_witness :
  ∃ w2, VirtualMachine.stop (Scenarios.always [Scenarios.bare_machine])
          (Scenarios.always Scenarios.bare_machine) (Scenarios.always ())
          Scenarios.instant Scenarios.deleted_at_once 10 300 true
          (Scenarios.started Scenarios.vm)
        = (deleted <- Scenarios.deleted_at_once ;; ret (Some deleted)) w2 ∧
        calls w2 = 3.
Proof.
  apply (proj2 (proj2 (stop_wait_accepts_missing_status
                         (Scenarios.always [Scenarios.bare_machine])
                         (Scenarios.always Scenarios.bare_machine) (Scenarios.always ())
                         Scenarios.instant Scenarios.deleted_at_once 10 300
                         (Scenarios.started Scenarios.vm)))
               Scenarios.bare_machine [] Scenarios.bare_machine);
    [reflexivity|reflexivity|reflexivity|reflexivity|lia].
Defined.

(** The same run, evaluated. *)
Example stop_bare_machine :
  VirtualMachine.stop (Scenarios.always [Scenarios.bare_machine])
    (Scenarios.always Scenarios.bare_machine) (Scenarios.always ())
    Scenarios.instant Scenarios.deleted_at_once 10 300 true
    (Scenarios.started Scenarios.vm)
  = (Ret (Some true),
     World Scenarios.vm 3 0
       [(INFO, "Wait for VirtualMachine vm-1 status to be None");
        (INFO, "Check if VirtualMachine vm-1 is ready")]).
Proof. reflexivity. Qed.

(** ** VirtualMachineInstance *)

Section VirtualMachineInstanceProperties.
Variable instance_at : nat → api_error + VirtualMachineInstance.Instance.t.
Variable pods_at : string → string → nat → api_error + list Pod.t.
Variable cost : nat → nat.

Local Abbreviation iface_ip := VirtualMachineInstance.iface_ip.
Local Abbreviation interface_ip := (VirtualMachineInstance.interface_ip instance_at cost).
Local Abbreviation pod_named := VirtualMachineInstance.pod_named.
Local Abbreviation virt_launcher_pod :=
  (VirtualMachineInstance.virt_launcher_pod instance_at pods_at cost).
Local Abbreviation get_vmi_active_condition :=
  (VirtualMachineInstance.get_vmi_active_condition instance_at cost).
Local Abbreviation reached := VirtualMachineInstance.reached.
Local Abbreviation samples := (VirtualMachineInstance.samples instance_at cost).
Local Abbreviation wait_for_vmi_condition_pause_status :=
  (VirtualMachineInstance.wait_for_vmi_condition_pause_status instance_at cost).
Local Abbreviation interfaceName := VirtualMachineInstance.interfaceName.
Local Abbreviation ipAddress := VirtualMachineInstance.ipAddress.
Local Abbreviation targetPod := VirtualMachineInstance.targetPod.
(** The world after one more request. *)
Local Abbreviation after_one w :=
  (World (this w) (S (calls w)) (clock w + cost (calls w)) (logs w)).

Implicit Types (w : world VirtualMachineInstance.t).
Implicit Types (ifaces : list VirtualMachineInstance.interface_t).
Implicit Types (pods : list Pod.t).

Lemma iface_ip_none interface ifaces :
  (∀ iface, iface ∈ ifaces → interfaceName iface ≠ Some interface) →
  iface_ip interface ifaces = [].
Proof.
  induction ifaces as [|iface ifaces IH]; intros H; simpl; [done|].
  rewrite bool_decide_eq_false_2 by (apply H; left).
  apply IH. intros other Hin. apply H. by right.
Qed.

Lemma iface_ip_first interface before iface after :
  (∀ other, other ∈ before → interfaceName other ≠ Some interface) →
  interfaceName iface = Some interface →
  iface_ip interface (before ++ iface :: after)
  = ipAddress iface :: iface_ip interface after.
Proof.
  induction before as [|x before IH]; intros H Hname; simpl.
  - by rewrite bool_decide_eq_true_2.
  - rewrite bool_decide_eq_false_2 by (apply H; left).
    apply IH; [|done]. intros other Hin. apply H. by right.
Qed.

(** C10: whatever the list of interfaces and the name asked for,
    interface_ip returns without raising; it returns the ipAddress of the
    first listed interface whose interfaceName equals the name, and None
    when no listed interface has that name. *)
Theorem interface_ip_first_match interface w i st ifaces :
  instance_at (calls w) = inr i →
  VirtualMachineInstance.Instance.status i = Some st →
  VirtualMachineInstance.Instance.interfaces st = Some ifaces →
  (∃ ip, interface_ip interface w = (Ret ip, after_one w)) ∧
  (∀ before iface after,
     ifaces = before ++ iface :: after →
     (∀ other, other ∈ before → interfaceName other ≠ Some interface) →
     interfaceName iface = Some interface →
     interface_ip interface w = (Ret (ipAddress iface), after_one w)) ∧
  ((∀ iface, iface ∈ ifaces → interfaceName iface ≠ Some interface) →
   interface_ip interface w = (Ret None, after_one w)).
Proof.
  intros Hi Hst Hifaces.
  assert (Hrun : interface_ip interface w
                 = (Ret (match iface_ip interface ifaces with
                         | ip :: _ => ip
                         | [] => None
                         end), after_one w)).
  { unfold VirtualMachineInstance.interface_ip, VirtualMachineInstance.interfaces,
      VirtualMachineInstance.instance, VirtualMachineInstance.status_of, bind, api_call.
    rewrite Hi, Hst. unfold ret at 1. rewrite Hifaces. unfold ret at 1.
    by destruct (iface_ip interface ifaces). }
  split; [|split].
  - eauto.
  - intros before iface after -> Hbefore Hname.
    by rewrite Hrun, iface_ip_first.
  - intros Hnone. by rewrite Hrun, iface_ip_none.
Qed.

Lemma pod_named_none target pods :
  pod_named target pods = None ↔ ∀ pod, pod ∈ pods → target ≠ Some (Pod.name pod).
Proof.
  induction pods as [|pod pods IH]; simpl.
  - split; [|done]. intros _ pod Hin. by apply elem_of_nil in Hin.
  - case_bool_decide as Heq.
    + split; [done|]. intros H. destruct (H pod); [by left|done].
    + rewrite IH. split.
      * intros H other [->|Hin]%elem_of_cons; [done|by apply H].
      * intros H other Hin. apply H. by right.
Qed.

Lemma exn_of_api_found e : exn_of_api e ≠ ResourceNotFoundError.
Proof. by destruct e. Qed.

Local Abbreviation selector i :=
  ("kubevirt.io=virt-launcher,kubevirt.io/created-by=" +:+ VirtualMachineInstance.Instance.uid i).
Local Abbreviation after_three w :=
  (World (this w) (S (S (S (calls w))))
     (clock w + cost (calls w) + cost (S (calls w)) + cost (S (S (calls w)))) (logs w)).

(** C9: with the uid, the pods and the status read from the cluster,
    virt_launcher_pod raises ResourceNotFoundError when migrationState is set
    and no listed pod is named as its targetPod; when migrationState is
    absent it returns the first listed pod and, the list being empty, raises
    IndexError; and it raises ResourceNotFoundError in no other case than
    the first. *)
Theorem virt_launcher_pod_not_found w :
  (∀ i0 pods i st,
     instance_at (calls w) = inr i0 →
     pods_at (VirtualMachineInstance.namespace (this w)) (selector i0) (S (calls w)) = inr pods →
     instance_at (S (S (calls w))) = inr i →
     VirtualMachineInstance.Instance.status i = Some st →
     (∀ migration_state,
        VirtualMachineInstance.Instance.migrationState st = Some migration_state →
        (∀ pod, pod ∈ pods → targetPod migration_state ≠ Some (Pod.name pod)) →
        virt_launcher_pod w = (Raise ResourceNotFoundError, after_three w)) ∧
     (VirtualMachineInstance.Instance.migrationState st = None →
      (pods = [] → virt_launcher_pod w = (Raise IndexError, after_three w)) ∧
      (∀ pod rest, pods = pod :: rest → virt_launcher_pod w = (Ret pod, after_three w)))) ∧
  (∀ w', virt_launcher_pod w = (Raise ResourceNotFoundError, w') →
     ∃ i0 pods i st migration_state,
       instance_at (calls w) = inr i0 ∧
       pods_at (VirtualMachineInstance.namespace (this w)) (selector i0) (S (calls w)) = inr pods ∧
       instance_at (S (S (calls w))) = inr i ∧
       VirtualMachineInstance.Instance.status i = Some st ∧
       VirtualMachineInstance.Instance.migrationState st = Some migration_state ∧
       ∀ pod, pod ∈ pods → targetPod migration_state ≠ Some (Pod.name pod)).
Proof.
  split.
  - intros i0 pods i st Hi0 Hpods Hi Hst.
    assert (Hrun : virt_launcher_pod w
              = match VirtualMachineInstance.Instance.migrationState st with
                | Some migration_state =>
                    match pod_named (targetPod migration_state) pods with
                    | Some pod => (Ret pod, after_three w)
                    | None => (Raise ResourceNotFoundError, after_three w)
                    end
                | None =>
                    match pods !! 0 with
                    | Some pod => (Ret pod, after_three w)
                    | None => (Raise IndexError, after_three w)
                    end
                end).
    { unfold VirtualMachineInstance.virt_launcher_pod, VirtualMachineInstance.instance,
        VirtualMachineInstance.status_of, get_self, bind, api_call.
      rewrite Hi0. simpl in Hpods |- *.
      rewrite Hpods. simpl. rewrite Hi, Hst. unfold ret at 1.
      destruct (VirtualMachineInstance.Instance.migrationState st) as [ms|].
      - by destruct (pod_named _ _).
      - by destruct (pods !! 0). }
    split.
    + intros ms Hms Hnone. rewrite Hrun, Hms.
      by rewrite (proj2 (pod_named_none _ _) Hnone).
    + intros Hms. rewrite Hrun, Hms. split.
      * by intros ->.
      * by intros pod rest ->.
  - intros w'.
    unfold VirtualMachineInstance.virt_launcher_pod, VirtualMachineInstance.instance,
      VirtualMachineInstance.status_of, get_self, bind, api_call. simpl.
    destruct (instance_at (calls w)) as [e|i0] eqn:Hi0.
    { intros [= He _]. by apply exn_of_api_found in He. }
    destruct (pods_at _ _ _) as [e|pods] eqn:Hpods.
    { intros [= He _]. by apply exn_of_api_found in He. }
    simpl. destruct (instance_at (S (S (calls w)))) as [e|i] eqn:Hi.
    { intros [= He _]. by apply exn_of_api_found in He. }
    destruct (VirtualMachineInstance.Instance.status i) as [st|] eqn:Hst; [|done].
    unfold ret at 1.
    destruct (VirtualMachineInstance.Instance.migrationState st) as [ms|] eqn:Hms.
    + destruct (pod_named (targetPod ms) pods) as [pod|] eqn:Hnamed; [done|].
      intros _. exists i0, pods, i, st, ms. repeat split; try done.
      by apply pod_named_none.
    + by destruct (pods !! 0).
Qed.

Lemma wait_for_vmi_condition_pause_status_unfold fuel pause timeout w :
  wait_for_vmi_condition_pause_status fuel pause timeout w
  = sample_loop fuel (samples timeout) (clock w) (reached pause) w.
Proof. reflexivity. Qed.

(** What the body of the loop answers, by the [reason] of the sample. *)
Lemma pause_reached_unfold pause (sample : gmap string pyval) w :
  reached pause sample w
  = match pause, sample !! "reason" with
    | false, _ => (Ret (Some ()), w)
    | true, None => (Raise (KeyError "reason"), w)
    | true, Some reason =>
        if py_eq reason (PyStr "PausedByUser") || negb (truthy reason)
        then (Ret (Some ()), w) else (Ret None, w)
    end.
Proof.
  unfold VirtualMachineInstance.reached, VirtualMachineInstance.subscript,
    VirtualMachineInstance.dict_get, bind, ret, raise.
  destruct pause; simpl; [|done].
  destruct (sample !! "reason") as [reason|]; simpl; [|done].
  destruct (py_eq reason (PyStr "PausedByUser")); simpl; [done|].
  by destruct (truthy reason).
Qed.

(** The part of C1 that holds: with pause=False the wait returns on the
    first sample, whatever its [reason]. *)
Lemma unpause_wait_returns_on_first_sample fuel timeout n w w_n sample w1 :
  advance n (samples timeout) (clock w) (reached false) w = Some w_n →
  get_vmi_active_condition w_n = (Ret sample, w1) →
  n < fuel →
  wait_for_vmi_condition_pause_status fuel false timeout w = (Ret (), w1).
Proof.
  intros Hadv Hprobe Hn. rewrite wait_for_vmi_condition_pause_status_unfold.
  eapply sample_loop_reaches; [exact Hadv| |exact Hn].
  eapply sample_once_accept; [exact Hprobe|]. by rewrite pause_reached_unfold.
Qed.

(** With pause=True a sample whose [reason] is present but empty ends the
    wait as well. *)
Lemma pause_wait_returns_on_falsy_reason fuel timeout n w w_n sample reason w1 :
  advance n (samples timeout) (clock w) (reached true) w = Some w_n →
  get_vmi_active_condition w_n = (Ret sample, w1) →
  sample !! "reason" = Some reason →
  truthy reason = false →
  n < fuel →
  wait_for_vmi_condition_pause_status fuel true timeout w = (Ret (), w1).
Proof.
  intros Hadv Hprobe Hreason Hfalsy Hn. rewrite wait_for_vmi_condition_pause_status_unfold.
  eapply sample_loop_reaches; [exact Hadv| |exact Hn].
  eapply sample_once_accept; [exact Hprobe|].
  rewrite pause_reached_unfold, Hreason, Hfalsy. simpl. by rewrite orb_true_r.
Qed.

(** C1 (the code at the failing input): with pause=True, a sample that has
    no [reason] key does not end the wait with a return; the subscript of
    the first test raises KeyError, which leaves the method. *)
Theorem pause_wait_raises_without_reason fuel timeout n w w_n sample w1 :
  advance n (samples timeout) (clock w) (reached true) w = Some w_n →
  get_vmi_active_condition w_n = (Ret sample, w1) →
  sample !! "reason" = None →
  n < fuel →
  wait_for_vmi_condition_pause_status fuel true timeout w
  = (Raise (KeyError "reason"), w1).
Proof.
  intros Hadv Hprobe Hreason Hn. rewrite wait_for_vmi_condition_pause_status_unfold.
  eapply sample_loop_reaches; [exact Hadv| |exact Hn].
  eapply sample_once_body_raises; [exact Hprobe|].
  by rewrite pause_reached_unfold, Hreason.
Qed.
End VirtualMachineInstanceProperties.

(** C10 on an instance with two interfaces. *)
Lemma interface_ip_first_match_witness :
  VirtualMachineInstance.interface_ip (Scenarios.always (Scenarios.guest [] None))
    Scenarios.instant "eth1" (Scenarios.started Scenarios.vmi)
  = (Ret (Some "192.168.1.7"), World Scenarios.vmi 1 0 []) ∧
  VirtualMachineInstance.interface_ip (Scenarios.always (Scenarios.guest [] None))
    Scenarios.instant "eth2" (Scenarios.started Scenarios.vmi)
  = (Ret None, World Scenarios.vmi 1 0 []).
Proof.
  split.
  - apply (proj1 (proj2 (interface_ip_first_match
                           (Scenarios.always (Scenarios.guest [] None)) Scenarios.instant
                           "eth1" (Scenarios.started Scenarios.vmi) _ _ _
                           eq_refl eq_refl eq_refl))
                 [Scenarios.eth0] Scenarios.eth1 []); [reflexivity| |reflexivity].
    intros other ->%list_elem_of_singleton. discriminate.
  - apply (proj2 (proj2 (interface_ip_first_match
                           (Scenarios.always (Scenarios.guest [] None)) Scenarios.instant
                           "eth2" (Scenarios.started Scenarios.vmi) _ _ _
                           eq_refl eq_refl eq_refl))).
    intros iface Hin. repeat (apply elem_of_cons in Hin as [->|Hin]; [discriminate|]).
    by apply elem_of_nil in Hin.
Defined.

(** C9 on an instance that migrated to a pod that is not listed, and on an
    instance that did not migrate and has no pod. *)
Lemma virt_launcher_pod_not_found_witness :
  VirtualMachineInstance.virt_launcher_pod
    (Scenarios.always (Scenarios.guest []
       (Some {| VirtualMachineInstance.targetPod := Some "virt-launcher-vm-1-b" |})))
    (Scenarios.listing [Scenarios.launcher "virt-launcher-vm-1-a"]) Scenarios.instant
    (Scenarios.started Scenarios.vmi)
  = (Raise ResourceNotFoundError, World Scenarios.vmi 3 0 []) ∧
  VirtualMachineInstance.virt_launcher_pod
    (Scenarios.always (Scenarios.guest [] None)) (Scenarios.listing []) Scenarios.instant
    (Scenarios.started Scenarios.vmi)
  = (Raise IndexError, World Scenarios.vmi 3 0 []).
Proof.
  split.
  - destruct (proj1 (virt_launcher_pod_not_found
                       (Scenarios.always (Scenarios.guest []
                          (Some {| VirtualMachineInstance.targetPod := Some "virt-launcher-vm-1-b" |})))
                       (Scenarios.listing [Scenarios.launcher "virt-launcher-vm-1-a"])
                       Scenarios.instant (Scenarios.started Scenarios.vmi))
                    _ _ _ _ eq_refl eq_refl eq_refl eq_refl) as [Hmigrated _].
    apply (Hmigrated _ eq_refl).
    intros pod ->%list_elem_of_singleton. discriminate.
  - destruct (proj1 (virt_launcher_pod_not_found
                       (Scenarios.always (Scenarios.guest [] None)) (Scenarios.listing [])
                       Scenarios.instant (Scenarios.started Scenarios.vmi))
                    _ _ _ _ eq_refl eq_refl eq_refl eq_refl) as [_ Hstayed].
    by apply Hstayed.
Defined.

(** C1 at the failing input: the instance runs, its only condition is Ready
    and has no reason. *)
Lemma pause_wait_raises_without_reason_witness :
  VirtualMachineInstance.wait_for_vmi_condition_pause_status
    (Scenarios.always (Scenarios.guest [Scenarios.ready_condition] None)) Scenarios.instant
    10 true 300 (Scenarios.started Scenarios.vmi)
  = (Raise (KeyError "reason"), World Scenarios.vmi 1 0 []).
Proof.
  apply (pause_wait_raises_without_reason
           (Scenarios.always (Scenarios.guest [Scenarios.ready_condition] None))
           Scenarios.instant 10 300 0 (Scenarios.started Scenarios.vmi)
           (Scenarios.started Scenarios.vmi)
           (VirtualMachineInstance.active_condition [Scenarios.ready_condition]));
    [reflexivity|reflexivity|vm_compute; reflexivity|lia].
Defined.

(** Once the Paused condition is there the same wait returns, and the wait for
    the unpaused state returns on it as well. *)
Example pause_wait_on_paused_instance :
  VirtualMachineInstance.wait_for_vmi_condition_pause_status
    (Scenarios.always (Scenarios.guest [Scenarios.ready_condition; Scenarios.paused_condition]
                         None))
    Scenarios.instant 10 true 300 (Scenarios.started Scenarios.vmi)
  = (Ret (), World Scenarios.vmi 1 0 []) ∧
  VirtualMachineInstance.wait_for_vmi_condition_pause_status
    (Scenarios.always (Scenarios.guest [Scenarios.ready_condition; Scenarios.paused_condition]
                         None))
    Scenarios.instant 10 false 300 (Scenarios.started Scenarios.vmi)
  = (Ret (), World Scenarios.vmi 1 0 []).
Proof. split; vm_compute; reflexivity. Qed.

(** ** What a wait leaves untouched *)

Section Frame.
Context {O : Type}.
Implicit Types (w : world O).

Lemma world_eq (self : O) calls c1 c2 logs :
  c1 = c2 → World self calls c1 logs = World self calls c2 logs.
Proof. by intros ->. Qed.

Lemma keeps_self_ret {A} (a : A) : keeps_self (ret (O:=O) a).
Proof. done. Qed.

Lemma keeps_self_raise {A} e : keeps_self (raise (O:=O) (A:=A) e).
Proof. done. Qed.

Lemma keeps_self_get_self : keeps_self (get_self (O:=O)).
Proof. done. Qed.

Lemma keeps_self_log level msg : keeps_self (log (O:=O) level msg).
Proof. done. Qed.

Lemma keeps_self_api_call {I} (responses : nat → api_error + I) cost :
  keeps_self (api_call (O:=O) responses cost).
Proof. intros w. unfold api_call. by destruct (responses (calls w)). Qed.

Lemma keeps_self_bind {A B} (m : M O A) (k : A → M O B) :
  keeps_self m → (∀ a, keeps_self (k a)) → keeps_self (bind m k).
Proof.
  intros Hm Hk w. unfold bind. specialize (Hm w).
  destruct (m w) as [[a|e|] w1]; simpl in *; [|done..].
  by rewrite Hk.
Qed.

Lemma keeps_self_try_except {A} (m : M O A) caught handler :
  keeps_self m → keeps_self handler → keeps_self (try_except m caught handler).
Proof.
  intros Hm Hh w. unfold try_except. specialize (Hm w).
  destruct (m w) as [[a|e|] w1]; simpl in *; [done| |done].
  destruct (caught e); [|done]. by rewrite Hh.
Qed.

Lemma keeps_self_sample_once {T R} (samples : TimeoutSampler O T) t0
    (body : T → M O (option R)) w :
  keeps_self (func samples) → (∀ v, keeps_self (body v)) →
  match sample_once samples t0 body w with
  | Stop _ w1 | Next w1 => this w1 = this w
  end.
Proof.
  intros Hf Hb. unfold sample_once, check_deadline. specialize (Hf w).
  destruct (func samples w) as [[v|e|] w1]; simpl in *; [| |done].
  - specialize (Hb v w1).
    destruct (body v w1) as [[[r|]|e|] w2]; simpl in *; try congruence.
    destruct (timeout samples <=? _); simpl; congruence.
  - destruct (exceptions samples e); [|done]. by destruct (timeout samples <=? _).
Qed.

Lemma keeps_self_for_each_sample {T R} fuel (samples : TimeoutSampler O T)
    (body : T → M O (option R)) :
  keeps_self (func samples) → (∀ v, keeps_self (body v)) →
  keeps_self (for_each_sample fuel samples body).
Proof.
  intros Hf Hb w. unfold for_each_sample. generalize (clock w) as t0. intros t0.
  revert w. induction fuel as [|fuel IH]; intros w; simpl; [done|].
  pose proof (keeps_self_sample_once samples t0 body w Hf Hb) as Hstep.
  destruct (sample_once samples t0 body w) as [r w1|w1]; simpl; [done|].
  by rewrite IH.
Qed.

Lemma shift_clock_sleep d seconds w :
  time_sleep seconds (shift_clock d w) = shift_clock d (time_sleep seconds w).
Proof. unfold time_sleep, shift_clock. simpl. apply world_eq. lia. Qed.

Lemma time_invariant_ret {A} (a : A) : time_invariant (ret (O:=O) a).
Proof. done. Qed.

Lemma time_invariant_raise {A} e : time_invariant (raise (O:=O) (A:=A) e).
Proof. done. Qed.

Lemma time_invariant_get_self : time_invariant (get_self (O:=O)).
Proof. done. Qed.

Lemma time_invariant_log level msg : time_invariant (log (O:=O) level msg).
Proof. done. Qed.

Lemma time_invariant_api_call {I} (responses : nat → api_error + I) cost :
  time_invariant (api_call (O:=O) responses cost).
Proof.
  intros d w. unfold api_call, shifted, shift_clock. simpl.
  destruct (responses (calls w)); simpl; f_equal; apply world_eq; lia.
Qed.

Lemma time_invariant_bind {A B} (m : M O A) (k : A → M O B) :
  time_invariant m → (∀ a, time_invariant (k a)) → time_invariant (bind m k).
Proof.
  intros Hm Hk d w. unfold bind. rewrite Hm. unfold shifted at 1.
  destruct (m w) as [[a|e|] w1]; simpl; [|done..].
  apply Hk.
Qed.

Lemma time_invariant_try_except {A} (m : M O A) caught handler :
  time_invariant m → time_invariant handler →
  time_invariant (try_except m caught handler).
Proof.
  intros Hm Hh d w. unfold try_except. rewrite Hm. unfold shifted at 1.
  destruct (m w) as [[a|e|] w1]; simpl; [done| |done].
  destruct (caught e); [|done]. apply Hh.
Qed.

Lemma time_invariant_sample_loop {T R} fuel (samples : TimeoutSampler O T) t0
    (body : T → M O (option R)) d w :
  time_invariant (func samples) → (∀ v, time_invariant (body v)) →
  sample_loop fuel samples (t0 + d) body (shift_clock d w)
  = shifted d (sample_loop fuel samples t0 body w).
Proof.
  intros Hf Hb. revert w. induction fuel as [|fuel IH]; intros w; simpl; [done|].
  assert (Hcheck : ∀ w0, check_deadline (R:=R) samples (t0 + d) (shift_clock d w0)
                   = match check_deadline (R:=R) samples t0 w0 with
                     | Stop r w1 => Stop r (shift_clock d w1)
                     | Next w1 => Next (shift_clock d w1)
                     end).
  { intros w0. unfold check_deadline. simpl.
    replace (clock w0 + d - (t0 + d)) with (clock w0 - t0) by lia.
    destruct (timeout samples <=? _); [done|]. by rewrite shift_clock_sleep. }
  assert (Hstep : sample_once samples (t0 + d) body (shift_clock d w)
                  = match sample_once samples t0 body w with
                    | Stop r w1 => Stop r (shift_clock d w1)
                    | Next w1 => Next (shift_clock d w1)
                    end).
  { unfold sample_once. rewrite Hf. unfold shifted at 1.
    destruct (func samples w) as [[v|e|] w1]; simpl; [| |done].
    - rewrite Hb. unfold shifted at 1.
      destruct (body v w1) as [[[r|]|e|] w2]; simpl; try done.
    - destruct (exceptions samples e); [|done]. apply Hcheck. }
  rewrite Hstep. destruct (sample_once samples t0 body w) as [r w1|w1]; [done|].
  apply IH.
Qed.

Lemma time_invariant_for_each_sample {T R} fuel (samples : TimeoutSampler O T)
    (body : T → M O (option R)) :
  time_invariant (func samples) → (∀ v, time_invariant (body v)) →
  time_invariant (for_each_sample fuel samples body).
Proof.
  intros Hf Hb d w. unfold for_each_sample.
  change (clock (shift_clock d w)) with (clock w + d).
  by apply time_invariant_sample_loop.
Qed.

Lemma rebase_afresh w : rebase w (afresh w) = w.
Proof.
  destruct w as [self calls clock logs]. unfold rebase, afresh. simpl.
  by rewrite !Nat.add_0_r, app_nil_r.
Qed.

Lemma rebase_eq (b : world O) (self : O) calls1 calls2 clock1 clock2 logs1 logs2 :
  calls b + calls1 = calls2 → clock b + clock1 = clock2 → logs b ++ logs1 = logs2 →
  World self calls2 clock2 logs2 = rebase b (World self calls1 clock1 logs1).
Proof. intros <- <- <-. done. Qed.

Lemma relocates_ret {A} b (a : A) : relocates b (ret (O:=O) a) (ret a).
Proof. done. Qed.

Lemma relocates_raise {A} b e : relocates b (raise (O:=O) (A:=A) e) (raise e).
Proof. done. Qed.

Lemma relocates_get_self b : relocates b (get_self (O:=O)) get_self.
Proof. done. Qed.

Lemma relocates_log b level msg : relocates b (log (O:=O) level msg) (log level msg).
Proof.
  intros w. unfold log, rebase. simpl. f_equal. by rewrite app_assoc.
Qed.

Lemma relocates_api_call {I} b (responses : nat → api_error + I) cost :
  relocates b (api_call (O:=O) responses cost)
    (api_call (from_request (calls b) responses) (from_request (calls b) cost)).
Proof.
  intros w. unfold api_call, from_request, rebase. simpl.
  destruct (responses (calls b + calls w)); simpl; f_equal; f_equal; lia.
Qed.

Lemma relocates_bind {A B} b (m m0 : M O A) (k k0 : A → M O B) :
  relocates b m m0 → (∀ a, relocates b (k a) (k0 a)) → relocates b (bind m k) (bind m0 k0).
Proof.
  intros Hm Hk w. unfold bind. rewrite Hm.
  destruct (m0 w) as [[a|e|] w1]; simpl; [|done..].
  apply Hk.
Qed.

Lemma relocates_try_except {A} b (m m0 : M O A) caught handler handler0 :
  relocates b m m0 → relocates b handler handler0 →
  relocates b (try_except m caught handler) (try_except m0 caught handler0).
Proof.
  intros Hm Hh w. unfold try_except. rewrite Hm.
  destruct (m0 w) as [[a|e|] w1]; simpl; [done| |done].
  destruct (caught e); [|done]. apply Hh.
Qed.

Lemma relocates_sample_loop {T R} b fuel timeout sleep exceptions
    (probe probe0 : M O T) (body body0 : T → M O (option R)) t0 w :
  relocates b probe probe0 → (∀ v, relocates b (body v) (body0 v)) →
  sample_loop fuel
    {| timeout := timeout; sleep := sleep; exceptions := exceptions; func := probe |}
    (clock b + t0) body (rebase b w)
  = (fst (sample_loop fuel
            {| timeout := timeout; sleep := sleep; exceptions := exceptions; func := probe0 |}
            t0 body0 w),
     rebase b
       (snd (sample_loop fuel
               {| timeout := timeout; sleep := sleep; exceptions := exceptions;
                  func := probe0 |}
               t0 body0 w))).
Proof.
  intros Hf Hb. revert w.
  induction fuel as [|fuel IH]; intros w; simpl; [done|].
  unfold sample_once. simpl. rewrite Hf.
  assert (Hcheck : ∀ w0,
            check_deadline (R:=R)
              {| timeout := timeout; sleep := sleep; exceptions := exceptions; func := probe |}
              (clock b + t0) (rebase b w0)
            = match check_deadline (R:=R)
                      {| timeout := timeout; sleep := sleep; exceptions := exceptions;
                         func := probe0 |} t0 w0 with
              | Stop r w1 => Stop r (rebase b w1)
              | Next w1 => Next (rebase b w1)
              end).
  { intros w0. unfold check_deadline. simpl.
    replace (clock b + clock w0 - (clock b + t0)) with (clock w0 - t0) by lia.
    destruct (timeout <=? _); [done|]. f_equal. unfold time_sleep, rebase. simpl.
    f_equal. lia. }
  destruct (probe0 w) as [[v|e|] w1]; simpl; [| |done].
  - rewrite Hb. destruct (body0 v w1) as [[[r|]|e|] w2]; simpl; try done.
    rewrite Hcheck. destruct (check_deadline _ t0 w2); [done|]. apply IH.
  - destruct (exceptions e); [|done].
    rewrite Hcheck. destruct (check_deadline _ t0 w1); [done|]. apply IH.
Qed.

Lemma relocates_for_each_sample {T R} b fuel timeout sleep exceptions
    (probe probe0 : M O T) (body body0 : T → M O (option R)) :
  relocates b probe probe0 → (∀ v, relocates b (body v) (body0 v)) →
  relocates b
    (for_each_sample fuel
       {| timeout := timeout; sleep := sleep; exceptions := exceptions; func := probe |} body)
    (for_each_sample fuel
       {| timeout := timeout; sleep := sleep; exceptions := exceptions; func := probe0 |} body0).
Proof.
  intros Hf Hb w. unfold for_each_sample.
  change (clock (rebase b w)) with (clock b + clock w).
  by apply relocates_sample_loop.
Qed.
End Frame.

Create HintDb frame.

#[local] Hint Resolve keeps_self_ret keeps_self_raise keeps_self_get_self keeps_self_log
  keeps_self_api_call keeps_self_bind keeps_self_try_except keeps_self_for_each_sample
  time_invariant_ret time_invariant_raise time_invariant_get_self time_invariant_log
  time_invariant_api_call time_invariant_bind time_invariant_try_except
  time_invariant_for_each_sample
  relocates_ret relocates_raise relocates_get_self relocates_log relocates_api_call : frame.

(** Splits the methods along their binds and branches. *)
Ltac frame :=
  repeat first
    [ progress intros
    | progress cbn [func]
    | solve [auto with frame]
    | apply keeps_self_bind | apply keeps_self_try_except | apply keeps_self_for_each_sample
    | apply time_invariant_bind | apply time_invariant_try_except
    | apply time_invariant_for_each_sample
    | apply relocates_bind | apply relocates_try_except | apply relocates_for_each_sample
    | match goal with
      | |- context [match ?x with _ => _ end] => destruct x
      | |- context [if ?x then _ else _] => destruct x
      end ].

Lemma machineset_ready_replicas_frame instance_at cost :
  keeps_self (MachineSet.ready_replicas instance_at cost) ∧
  time_invariant (MachineSet.ready_replicas instance_at cost).
Proof.
  unfold MachineSet.ready_replicas, MachineSet.instance, MachineSet.status_of.
  split; frame.
Qed.

Lemma machineset_desired_replicas_frame instance_at cost :
  keeps_self (MachineSet.desired_replicas instance_at cost) ∧
  time_invariant (MachineSet.desired_replicas instance_at cost).
Proof.
  unfold MachineSet.desired_replicas, MachineSet.instance, MachineSet.status_of.
  split; frame.
Qed.

Lemma machineset_wait_for_replicas_frame instance_at cost default fuel timeout sleep :
  keeps_self (MachineSet.wait_for_replicas instance_at cost default fuel timeout sleep) ∧
  time_invariant (MachineSet.wait_for_replicas instance_at cost default fuel timeout sleep).
Proof.
  pose proof (machineset_ready_replicas_frame instance_at cost) as [? ?].
  pose proof (machineset_desired_replicas_frame instance_at cost) as [? ?].
  unfold MachineSet.wait_for_replicas, MachineSet.on_timeout, MachineSet.reached,
    MachineSet.samples.
  split; frame.
Qed.

Lemma vm_ready_frame instance_at cost :
  keeps_self (VirtualMachine.ready instance_at cost) ∧
  time_invariant (VirtualMachine.ready instance_at cost).
Proof.
  unfold VirtualMachine.ready, VirtualMachine.instance.
  split; frame.
Qed.

Lemma vm_wait_for_status_frame get_at instance_at cost fuel status timeout :
  keeps_self (VirtualMachine.wait_for_status get_at instance_at cost fuel status timeout) ∧
  time_invariant (VirtualMachine.wait_for_status get_at instance_at cost fuel status timeout).
Proof.
  pose proof (vm_ready_frame instance_at cost) as [? ?].
  unfold VirtualMachine.wait_for_status, VirtualMachine.reached, VirtualMachine.samples,
    VirtualMachine.api_get.
  split; frame.
Qed.

(** The reads of the resource, run on what a world holds already. *)
Lemma machineset_reads_relocate (b : world MachineSet.t) instance_at cost :
  relocates b (MachineSet.ready_replicas instance_at cost)
    (MachineSet.ready_replicas (from_request (calls b) instance_at)
       (from_request (calls b) cost)) ∧
  relocates b (MachineSet.desired_replicas instance_at cost)
    (MachineSet.desired_replicas (from_request (calls b) instance_at)
       (from_request (calls b) cost)).
Proof.
  unfold MachineSet.ready_replicas, MachineSet.desired_replicas, MachineSet.instance,
    MachineSet.status_of.
  split; frame.
Qed.

Lemma machineset_wait_for_replicas_relocates (b : world MachineSet.t)
    instance_at cost default fuel timeout sleep :
  relocates b (MachineSet.wait_for_replicas instance_at cost default fuel timeout sleep)
    (MachineSet.wait_for_replicas (from_request (calls b) instance_at)
       (from_request (calls b) cost) default fuel timeout sleep).
Proof.
  pose proof (machineset_reads_relocate b instance_at cost) as [? ?].
  unfold MachineSet.wait_for_replicas, MachineSet.on_timeout, MachineSet.reached,
    MachineSet.samples.
  frame.
Qed.

Lemma vm_ready_relocates (b : world VirtualMachine.t) instance_at cost :
  relocates b (VirtualMachine.ready instance_at cost)
    (VirtualMachine.ready (from_request (calls b) instance_at) (from_request (calls b) cost)).
Proof. unfold VirtualMachine.ready, VirtualMachine.instance. frame. Qed.

Lemma vm_wait_for_status_relocates (b : world VirtualMachine.t)
    get_at instance_at cost fuel status timeout :
  relocates b (VirtualMachine.wait_for_status get_at instance_at cost fuel status timeout)
    (VirtualMachine.wait_for_status (from_request (calls b) get_at)
       (from_request (calls b) instance_at) (from_request (calls b) cost)
       fuel status timeout).
Proof.
  pose proof (vm_ready_relocates b instance_at cost).
  unfold VirtualMachine.wait_for_status, VirtualMachine.reached, VirtualMachine.samples,
    VirtualMachine.api_get.
  frame.
Qed.

(** C7: a wait is the loop of a sampler that it builds from its own
    arguments and starts at its own clock, and it keeps nothing of it. So it
    leaves every attribute of the wrapper as it found it, whether it returns
    or fails, and takes nothing from what happened before it: after any
    history of requests, seconds and log lines it does what it does when run
    on its own on the answers the API gives from then on, and started [d]
    seconds later it does the same [d] seconds later. When it gives up, it is
    its own timeout that has elapsed since its own start. *)
Theorem waits_leave_the_wrapper_alone :
  (∀ instance_at cost default fuel timeout sleep (w : world MachineSet.t),
     this (snd (MachineSet.wait_for_replicas instance_at cost default fuel timeout sleep w))
       = this w ∧
     MachineSet.wait_for_replicas instance_at cost default fuel timeout sleep w
       = match sample_loop fuel
                 {| timeout := timeout; sleep := sleep; exceptions := default;
                    func := MachineSet.ready_replicas instance_at cost |}
                 (clock w) (MachineSet.reached instance_at cost) w with
         | (Raise TimeoutExpiredError, w1) => MachineSet.on_timeout instance_at cost w1
         | other => other
         end ∧
     MachineSet.wait_for_replicas instance_at cost default fuel timeout sleep w
       = (fst (MachineSet.wait_for_replicas (from_request (calls w) instance_at)
                 (from_request (calls w) cost) default fuel timeout sleep (afresh w)),
          rebase w
            (snd (MachineSet.wait_for_replicas (from_request (calls w) instance_at)
                    (from_request (calls w) cost) default fuel timeout sleep (afresh w)))) ∧
     (∀ d, MachineSet.wait_for_replicas instance_at cost default fuel timeout sleep
             (shift_clock d w)
           = shifted d (MachineSet.wait_for_replicas instance_at cost default
                          fuel timeout sleep w)) ∧
     (fst (MachineSet.wait_for_replicas instance_at cost default fuel timeout sleep w)
        = Ret false →
      timeout ≤ clock (snd (MachineSet.wait_for_replicas instance_at cost default
                              fuel timeout sleep w)) - clock w)) ∧
  (∀ get_at instance_at cost fuel status timeout (w : world VirtualMachine.t),
     this (snd (VirtualMachine.wait_for_status get_at instance_at cost fuel status timeout w))
       = this w ∧
     VirtualMachine.wait_for_status get_at instance_at cost fuel status timeout w
       = sample_loop fuel
           {| timeout := timeout; sleep := 1; exceptions := only_ProtocolError;
              func := VirtualMachine.api_get get_at cost |}
           (clock w) (VirtualMachine.reached instance_at cost status)
           (World (this w) (calls w) (clock w)
              (logs w ++ [(INFO, VirtualMachine.wait_message (this w) status)])) ∧
     VirtualMachine.wait_for_status get_at instance_at cost fuel status timeout w
       = (fst (VirtualMachine.wait_for_status (from_request (calls w) get_at)
                 (from_request (calls w) instance_at) (from_request (calls w) cost)
                 fuel status timeout (afresh w)),
          rebase w
            (snd (VirtualMachine.wait_for_status (from_request (calls w) get_at)
                    (from_request (calls w) instance_at) (from_request (calls w) cost)
                    fuel status timeout (afresh w)))) ∧
     (∀ d, VirtualMachine.wait_for_status get_at instance_at cost fuel status timeout
             (shift_clock d w)
           = shifted d (VirtualMachine.wait_for_status get_at instance_at cost
                          fuel status timeout w)) ∧
     (fst (VirtualMachine.wait_for_status get_at instance_at cost fuel status timeout w)
        = Raise TimeoutExpiredError →
      timeout ≤ clock (snd (VirtualMachine.wait_for_status get_at instance_at cost
                              fuel status timeout w)) - clock w)).
Proof.
  split.
  - intros instance_at cost default fuel timeout sleep w.
    destruct (machineset_wait_for_replicas_frame instance_at cost default fuel timeout sleep)
      as [Hself Htime].
    split; [apply Hself|].
    split; [apply wait_for_replicas_unfold|].
    split.
    { rewrite <- (rebase_afresh w) at 1.
      by rewrite machineset_wait_for_replicas_relocates. }
    split; [intros d; apply Htime|].
    rewrite wait_for_replicas_unfold.
    destruct (sample_loop _ _ _ _ _) as [r w1] eqn:Hloop.
    assert (Hinv : r ≠ OutOfFuel →
              (r = Ret true) ∨ (∃ e, r = Raise e ∧ e ≠ TimeoutExpiredError) ∨
              (r = Raise TimeoutExpiredError ∧ timeout ≤ clock w1 - clock w)).
    { intros Hr. apply sample_loop_inv in Hloop as (n & w_n & _ & _ & Hstop); [|done].
      apply machineset_sample_once_stop_inv in Hstop as [[? _]|[?|?]]; auto. }
    destruct r as [[|]|e|]; simpl; try done.
    + destruct Hinv as [?|[(e & ? & _)|(? & _)]]; done.
    + destruct e; simpl; try done.
      destruct Hinv as [?|[(e & [= <-] & ?)|(_ & Hdeadline)]]; try done.
      destruct (MachineSet.on_timeout instance_at cost w1) as [r w2] eqn:Hhandler.
      apply on_timeout_later in Hhandler. simpl. lia.
  - intros get_at instance_at cost fuel status timeout w.
    destruct (vm_wait_for_status_frame get_at instance_at cost fuel status timeout)
      as [Hself Htime].
    split; [apply Hself|].
    split; [apply wait_for_status_unfold|].
    split.
    { rewrite <- (rebase_afresh w) at 1.
      by rewrite vm_wait_for_status_relocates. }
    split; [intros d; apply Htime|].
    rewrite wait_for_status_unfold.
    destruct (sample_loop _ _ _ _ _) as [r w1] eqn:Hloop. simpl. intros ->.
    apply sample_loop_inv in Hloop as (n & w_n & _ & _ & Hstop); [|done].
    by apply vm_sample_once_timeout_inv in Hstop.
Qed.

(** The machine set that is never ready, waited for during two seconds. *)
Lemma waits_leave_the_wrapper_alone_witness :
  2 ≤ clock (snd (MachineSet.wait_for_replicas Scenarios.never_ready Scenarios.instant
                    Scenarios.retries_nothing 10 2 1 (Scenarios.started Scenarios.workers)))
      - clock (Scenarios.started Scenarios.workers).
Proof.
  apply (proj1 waits_leave_the_wrapper_alone Scenarios.never_ready Scenarios.instant
           Scenarios.retries_nothing 10 2 1 (Scenarios.started Scenarios.workers)).
  reflexivity.
Defined.

(** ** Further properties of the wrappers *)

(** *** Strings *)

Lemma starts_with_spec needle hay :
  starts_with needle hay = true ↔ ∃ post, hay = needle +:+ post.
Proof.
  revert hay. induction needle as [|a needle IH]; intros hay; simpl.
  - split; [eauto|done].
  - destruct hay as [|b hay]; simpl.
    + split; [done|]. by intros [post [=]].
    + rewrite andb_true_iff, IH. split.
      * intros [Hab [post ->]]. apply Ascii.eqb_eq in Hab as ->. eauto.
      * intros [post [= -> ->]]. split; [apply Ascii.eqb_refl|eauto].
Qed.

(** [needle in hay] holds exactly when [hay] is [needle] between two strings. *)
Lemma contains_spec needle hay :
  contains needle hay = true ↔ ∃ pre post, hay = pre +:+ needle +:+ post.
Proof.
  induction hay as [|b hay IH]; simpl.
  - rewrite orb_false_r, starts_with_spec. split.
    + intros [post H]. exists "", post. done.
    + intros (pre & post & H). destruct pre as [|c pre]; [by exists post|done].
  - rewrite orb_true_iff, starts_with_spec, IH. split.
    + intros [[post H]|(pre & post & ->)].
      * by exists "", post.
      * by exists (String b pre), post.
    + intros (pre & post & H). destruct pre as [|c pre].
      * left. by exists post.
      * right. injection H as -> ->. eauto.
Qed.

Lemma append_inj_r (s a b : string) : s +:+ a = s +:+ b → a = b.
Proof. induction s as [|c s IH]; simpl; [done|]. intros [= H]. by apply IH. Qed.

(** *** Paths in a manifest *)

Lemma lookup_path_cons key rest (d : gmap string pyobj) o :
  d !! key = Some o → lookup_path (key :: rest) (Dict d) = lookup_path rest o.
Proof. intros H. simpl. by rewrite H. Qed.

Lemma lookup_path_one key (d : gmap string pyobj) :
  lookup_path [key] (Dict d) = d !! key.
Proof. simpl. by destruct (d !! key). Qed.

(** *** VirtualMachineInstance.get_vmi_active_condition *)

Section ActiveCondition.
Local Abbreviation active condition :=
  (truthy (default PyNone (condition !! "lastTransitionTime"))).
Local Abbreviation active_condition := VirtualMachineInstance.active_condition.

Implicit Types (conditions before after : list (gmap string pyval)).
Implicit Types (condition : gmap string pyval).

Lemma active_condition_snoc conditions condition :
  active_condition (conditions ++ [condition])
  = if active condition then condition ∪ active_condition conditions
    else active_condition conditions.
Proof. unfold VirtualMachineInstance.active_condition. by rewrite foldl_app. Qed.

(** X7: the sampled dict mixes the conditions: under each key it holds the value
    of the last condition that has a true [lastTransitionTime] and that key,
    whichever conditions follow it without the key; a key that no such
    condition has is missing. *)
Theorem active_condition_last_wins conditions (key : string) :
  (∀ before condition after v,
     conditions = before ++ condition :: after →
     active condition = true →
     condition !! key = Some v →
     (∀ later, later ∈ after → active later = true → later !! key = None) →
     active_condition conditions !! key = Some v) ∧
  ((∀ condition, condition ∈ conditions → active condition = true → condition !! key = None) →
   active_condition conditions !! key = None).
Proof.
  split.
  - intros before condition after v -> Hactive Hkey.
    induction after as [|later after IH] using rev_ind; intros Hafter.
    + rewrite active_condition_snoc, Hactive. by apply lookup_union_Some_l.
    + replace (before ++ condition :: after ++ [later])
        with ((before ++ condition :: after) ++ [later]) by by rewrite <- app_assoc.
      rewrite active_condition_snoc.
      assert (IH' : active_condition (before ++ condition :: after) !! key = Some v).
      { apply IH. intros c Hin. apply Hafter. apply elem_of_app. by left. }
      destruct (active later) eqn:Hlater; [|done].
      rewrite lookup_union_r; [done|].
      apply Hafter; [|done]. apply elem_of_app. right. by apply list_elem_of_singleton.
  - induction conditions as [|condition conditions IH] using rev_ind; intros Hnone; [done|].
    rewrite active_condition_snoc.
    assert (IH' : active_condition conditions !! key = None).
    { apply IH. intros c Hin. apply Hnone. apply elem_of_app. by left. }
    destruct (active condition) eqn:Hactive; [|done].
    apply lookup_union_None. split; [|done].
    apply Hnone; [|done]. apply elem_of_app. right. by apply list_elem_of_singleton.
Qed.
End ActiveCondition.

(** A Paused condition followed by a Ready condition that has no reason: the
    sample is of type Ready and still carries the reason of the pause. *)
Lemma active_condition_last_wins_witness :
  VirtualMachineInstance.active_condition [Scenarios.paused_condition; Scenarios.ready_condition]
    !! "reason" = Some (PyStr "PausedByUser") ∧
  VirtualMachineInstance.active_condition [Scenarios.paused_condition; Scenarios.ready_condition]
    !! "message" = None.
Proof.
  split.
  - apply (proj1 (active_condition_last_wins
                    [Scenarios.paused_condition; Scenarios.ready_condition] "reason")
                 [] Scenarios.paused_condition [Scenarios.ready_condition]);
      [reflexivity|vm_compute; reflexivity|vm_compute; reflexivity|].
    intros later ->%list_elem_of_singleton _. vm_compute. reflexivity.
  - apply (proj2 (active_condition_last_wins
                    [Scenarios.paused_condition; Scenarios.ready_condition] "message")).
    intros condition Hin _.
    repeat (apply elem_of_cons in Hin as [->|Hin]; [vm_compute; reflexivity|]).
    by apply elem_of_nil in Hin.
Defined.

(** *** The launcher pod, virsh and the waits built on them *)

Section Console.
Variable instance_at : nat → api_error + VirtualMachineInstance.Instance.t.
Variable pods_at : string → string → nat → api_error + list Pod.t.
Variable execute_at : Pod.t → list string → string → nat → api_error + string.
Variable log_at : Pod.t → string → nat → api_error + string.
Variable cost : nat → nat.
Variable wait_for_status : string → nat → option string → M VirtualMachineInstance.t unit.

Local Abbreviation virt_launcher_pod :=
  (VirtualMachineInstance.virt_launcher_pod instance_at pods_at cost).
Local Abbreviation get_domstate :=
  (VirtualMachineInstance.get_domstate instance_at pods_at execute_at cost).
Local Abbreviation domstate_samples :=
  (VirtualMachineInstance.domstate_samples instance_at pods_at execute_at cost).
Local Abbreviation domstate_reached := VirtualMachineInstance.domstate_reached.
Local Abbreviation pause_status := VirtualMachineInstance.pause_status.
Local Abbreviation wait_for_domstate_pause_status :=
  (VirtualMachineInstance.wait_for_domstate_pause_status instance_at pods_at execute_at cost).
Local Abbreviation wait_until_running :=
  (VirtualMachineInstance.wait_until_running instance_at pods_at log_at cost wait_for_status).
Local Abbreviation selector i :=
  ("kubevirt.io=virt-launcher,kubevirt.io/created-by=" +:+ VirtualMachineInstance.Instance.uid i).
Local Abbreviation after_three w :=
  (World (this w) (S (S (S (calls w))))
     (clock w + cost (calls w) + cost (S (calls w)) + cost (S (S (calls w)))) (logs w)).

Implicit Types (w : world VirtualMachineInstance.t).

(** The launcher pod of an instance that did not migrate and has no pod. *)
Lemma virt_launcher_pod_without_pod w i0 i st :
  instance_at (calls w) = inr i0 →
  pods_at (VirtualMachineInstance.namespace (this w)) (selector i0) (S (calls w)) = inr [] →
  instance_at (S (S (calls w))) = inr i →
  VirtualMachineInstance.Instance.status i = Some st →
  VirtualMachineInstance.Instance.migrationState st = None →
  virt_launcher_pod w = (Raise IndexError, after_three w).
Proof.
  intros Hi0 Hpods Hi Hst Hms.
  unfold VirtualMachineInstance.virt_launcher_pod, VirtualMachineInstance.instance,
    VirtualMachineInstance.status_of, get_self, bind, api_call.
  rewrite Hi0. simpl in Hpods |- *. rewrite Hpods. simpl. rewrite Hi, Hst.
  unfold ret at 1. by rewrite Hms.
Qed.

Lemma domstate_reached_inv pause sample w r w1 :
  domstate_reached pause sample w = (r, w1) →
  w1 = w ∧
  ((r = Ret (Some ()) ∧ ∃ pre post, sample = pre +:+ pause_status pause +:+ post) ∨
   (r = Ret None ∧ contains (pause_status pause) sample = false)).
Proof.
  unfold VirtualMachineInstance.domstate_reached.
  destruct (contains _ _) eqn:Hc; intros [= <- <-]; (split; [done|]); [left|right].
  - split; [done|]. by apply contains_spec.
  - done.
Qed.

(** X8: the domstate wait returns at the first output of [virsh domstate] that
    contains the awaited word ("paused" or "running") and it returns on no
    other ground. *)
Theorem domstate_wait_first_match fuel pause timeout w :
  (∀ n w_n sample w1 pre post,
     advance n (domstate_samples timeout) (clock w) (domstate_reached pause) w = Some w_n →
     get_domstate w_n = (Ret sample, w1) →
     sample = pre +:+ pause_status pause +:+ post →
     n < fuel →
     wait_for_domstate_pause_status fuel pause timeout w = (Ret (), w1)) ∧
  (∀ w', wait_for_domstate_pause_status fuel pause timeout w = (Ret (), w') →
     ∃ n w_n sample pre post,
       n < fuel ∧
       advance n (domstate_samples timeout) (clock w) (domstate_reached pause) w = Some w_n ∧
       get_domstate w_n = (Ret sample, w') ∧
       sample = pre +:+ pause_status pause +:+ post).
Proof.
  split.
  - intros n w_n sample w1 pre post Hadv Hprobe Hsample Hn.
    unfold VirtualMachineInstance.wait_for_domstate_pause_status, for_each_sample.
    eapply sample_loop_reaches; [exact Hadv| |exact Hn].
    eapply sample_once_accept; [exact Hprobe|].
    unfold VirtualMachineInstance.domstate_reached.
    by rewrite (proj2 (contains_spec _ _)) by eauto.
  - intros w'.
    unfold VirtualMachineInstance.wait_for_domstate_pause_status, for_each_sample.
    intros Hloop. apply sample_loop_inv in Hloop as (n & w_n & Hn & Hadv & Hstop); [|done].
    unfold sample_once in Hstop. simpl in Hstop.
    destruct (get_domstate w_n) as [[sample|e|] w1] eqn:Hprobe; [| |done].
    + destruct (domstate_reached pause sample w1) as [r w2] eqn:Hbody.
      apply domstate_reached_inv in Hbody as [-> [[-> (pre & post & Hs)]|[-> Hno]]].
      * injection Hstop as <-. exists n, w_n, sample, pre, post. done.
      * unfold check_deadline in Hstop. by destruct (_ <=? _).
    + destruct (only_ProtocolError e); [|done].
      unfold check_deadline in Hstop. by destruct (_ <=? _).
Qed.

(** X9: when the instance did not migrate and no launcher pod is listed, the
    domstate wait does not go on sampling until its deadline: the IndexError
    of the pod lookup leaves it in that very pass. *)
Theorem domstate_wait_without_pod fuel pause timeout n w w_n i0 i st :
  advance n (domstate_samples timeout) (clock w) (domstate_reached pause) w = Some w_n →
  instance_at (calls w_n) = inr i0 →
  pods_at (VirtualMachineInstance.namespace (this w_n)) (selector i0) (S (calls w_n)) = inr [] →
  instance_at (S (S (calls w_n))) = inr i →
  VirtualMachineInstance.Instance.status i = Some st →
  VirtualMachineInstance.Instance.migrationState st = None →
  n < fuel →
  wait_for_domstate_pause_status fuel pause timeout w = (Raise IndexError, after_three w_n).
Proof.
  intros Hadv Hi0 Hpods Hi Hst Hms Hn.
  unfold VirtualMachineInstance.wait_for_domstate_pause_status, for_each_sample.
  eapply sample_loop_reaches; [exact Hadv| |exact Hn].
  apply sample_once_fatal; [|done]. simpl.
  unfold VirtualMachineInstance.get_domstate, VirtualMachineInstance.virsh. unfold bind at 1.
  by rewrite (virt_launcher_pod_without_pod _ _ _ _ Hi0 Hpods Hi Hst Hms).
Qed.

(** The [except] clause never ends in a return. *)
Lemma vmi_on_timeout_raises logs w r w1 :
  VirtualMachineInstance.on_timeout instance_at pods_at log_at cost logs w = (r, w1) →
  ∀ a, r ≠ Ret a.
Proof.
  unfold VirtualMachineInstance.on_timeout. destruct logs; simpl.
  - unfold bind at 1. destruct (virt_launcher_pod w) as [[pod|e|] w2].
    + unfold log at 1, bind at 1. unfold bind at 1, api_call.
      destruct (log_at pod "compute" _); simpl; by intros [= <- <-].
    + by intros [= <- <-].
    + by intros [= <- <-].
  - by intros [= <- <-].
Qed.

(** X10: wait_until_running adds nothing to an outcome of the base wait_for_status
    other than its timeout, and turns no timeout into a return: it returns
    exactly when wait_for_status returns, in the same world; with logs=False
    the timeout passes through untouched as well. *)
Theorem wait_until_running_is_transparent timeout logs stop_status w :
  (∀ r w1,
     wait_for_status VirtualMachineInstance.RUNNING timeout stop_status w = (r, w1) →
     r ≠ Raise TimeoutExpiredError ∨ logs = false →
     wait_until_running timeout logs stop_status w = (r, w1)) ∧
  (∀ w',
     wait_until_running timeout logs stop_status w = (Ret (), w') →
     wait_for_status VirtualMachineInstance.RUNNING timeout stop_status w = (Ret (), w')).
Proof.
  unfold VirtualMachineInstance.wait_until_running, try_except. split.
  - intros r w1 -> Hr. destruct r as [[]|e|]; [done| |done].
    destruct e; try done. destruct Hr as [Hr| ->]; [done|]. done.
  - intros w'.
    destruct (wait_for_status _ _ _ w) as [[[]|e|] w1]; [done| |done].
    destruct (MachineSet.is_TimeoutExpiredError e); [|done].
    intros Hh. by apply vmi_on_timeout_raises with (a := ()) in Hh.
Qed.

(** X11: when wait_for_status times out and logs=True, wait_until_running looks
    the launcher pod up: if the pod is found and its log read, two DEBUG
    lines are written and TimeoutExpiredError is raised again; if the lookup
    raises, that error is raised and the timeout is lost. *)
Theorem wait_until_running_on_timeout timeout stop_status w w1 :
  wait_for_status VirtualMachineInstance.RUNNING timeout stop_status w
    = (Raise TimeoutExpiredError, w1) →
  (∀ pod w2 text,
     virt_launcher_pod w1 = (Ret pod, w2) →
     log_at pod "compute" (calls w2) = inr text →
     wait_until_running timeout true stop_status w
     = (Raise TimeoutExpiredError,
        World (this w2) (S (calls w2)) (clock w2 + cost (calls w2))
          (logs w2 ++ [(DEBUG, Pod.name pod +:+ " *****LOGS*****"); (DEBUG, text)]))) ∧
  (∀ e w2,
     virt_launcher_pod w1 = (Raise e, w2) →
     wait_until_running timeout true stop_status w = (Raise e, w2)).
Proof.
  intros Hbase.
  unfold VirtualMachineInstance.wait_until_running, try_except. rewrite Hbase. simpl.
  unfold VirtualMachineInstance.on_timeout. simpl. split.
  - intros pod w2 text Hpod Htext. unfold bind at 1. rewrite Hpod.
    unfold bind, log, api_call, raise. simpl. rewrite Htext. simpl.
    by rewrite <- app_assoc.
  - intros e w2 Hpod. unfold bind at 1. by rewrite Hpod.
Qed.
End Console.

(** The wait for the unpaused state on an instance whose domain is still
    paused at the first sample and runs at the second. *)
Lemma domstate_wait_first_match_witness :
  VirtualMachineInstance.wait_for_domstate_pause_status
    (Scenarios.always (Scenarios.guest [] None))
    (Scenarios.listing [Scenarios.launcher "virt-launcher-vm-1-a"])
    Scenarios.resumes_after_first_pass Scenarios.instant
    10 false 300 (Scenarios.started Scenarios.vmi)
  = (Ret (), World Scenarios.vmi 8 1 []).
Proof.
  apply (proj1 (domstate_wait_first_match
                  (Scenarios.always (Scenarios.guest [] None))
                  (Scenarios.listing [Scenarios.launcher "virt-launcher-vm-1-a"])
                  Scenarios.resumes_after_first_pass Scenarios.instant
                  10 false 300 (Scenarios.started Scenarios.vmi))
               1 (World Scenarios.vmi 4 1 []) "running" (World Scenarios.vmi 8 1 []) "" "");
    [reflexivity|reflexivity|reflexivity|lia].
Defined.

(** The same wait on an instance that has no launcher pod. *)
Lemma domstate_wait_without_pod_witness :
  VirtualMachineInstance.wait_for_domstate_pause_status
    (Scenarios.always (Scenarios.guest [] None)) (Scenarios.listing [])
    Scenarios.resumes_after_first_pass Scenarios.instant
    10 false 300 (Scenarios.started Scenarios.vmi)
  = (Raise IndexError, World Scenarios.vmi 3 0 []).
Proof.
  apply (domstate_wait_without_pod
           (Scenarios.always (Scenarios.guest [] None)) (Scenarios.listing [])
           Scenarios.resumes_after_first_pass Scenarios.instant
           10 false 300 0 (Scenarios.started Scenarios.vmi) (Scenarios.started Scenarios.vmi)
           _ _ _ eq_refl eq_refl eq_refl eq_refl eq_refl eq_refl).
  lia.
Defined.

(** With logs=False the timeout of the base wait is all there is. *)
Lemma wait_until_running_is_transparent_witness :
  VirtualMachineInstance.wait_until_running
    (Scenarios.always (Scenarios.guest [] None)) (Scenarios.listing [])
    (Scenarios.pod_says "") Scenarios.instant Scenarios.never_running
    30 false None (Scenarios.started Scenarios.vmi)
  = (Raise TimeoutExpiredError, World Scenarios.vmi 0 30 []).
Proof.
  apply (proj1 (wait_until_running_is_transparent
                  (Scenarios.always (Scenarios.guest [] None)) (Scenarios.listing [])
                  (Scenarios.pod_says "") Scenarios.instant Scenarios.never_running
                  30 false None (Scenarios.started Scenarios.vmi)));
    [reflexivity|by right].
Defined.

(** With logs=True: the log of the launcher pod is written before the timeout
    is raised again, and without a launcher pod the caller gets IndexError. *)
Lemma wait_until_running_on_timeout_witness :
  VirtualMachineInstance.wait_until_running
    (Scenarios.always (Scenarios.guest [] None))
    (Scenarios.listing [Scenarios.launcher "virt-launcher-vm-1-a"])
    (Scenarios.pod_says "qemu: boot failed") Scenarios.instant Scenarios.never_running
    30 true None (Scenarios.started Scenarios.vmi)
  = (Raise TimeoutExpiredError,
     World Scenarios.vmi 4 30
       [(DEBUG, "virt-launcher-vm-1-a *****LOGS*****"); (DEBUG, "qemu: boot failed")]) ∧
  VirtualMachineInstance.wait_until_running
    (Scenarios.always (Scenarios.guest [] None)) (Scenarios.listing [])
    (Scenarios.pod_says "qemu: boot failed") Scenarios.instant Scenarios.never_running
    30 true None (Scenarios.started Scenarios.vmi)
  = (Raise IndexError, World Scenarios.vmi 3 30 []).
Proof.
  split.
  - apply (proj1 (wait_until_running_on_timeout
                    (Scenarios.always (Scenarios.guest [] None))
                    (Scenarios.listing [Scenarios.launcher "virt-launcher-vm-1-a"])
                    (Scenarios.pod_says "qemu: boot failed") Scenarios.instant
                    Scenarios.never_running 30 None (Scenarios.started Scenarios.vmi)
                    (World Scenarios.vmi 0 30 []) eq_refl)
                 (Scenarios.launcher "virt-launcher-vm-1-a") (World Scenarios.vmi 3 30 []));
      reflexivity.
  - apply (proj2 (wait_until_running_on_timeout
                    (Scenarios.always (Scenarios.guest [] None)) (Scenarios.listing [])
                    (Scenarios.pod_says "qemu: boot failed") Scenarios.instant
                    Scenarios.never_running 30 None (Scenarios.started Scenarios.vmi)
                    (World Scenarios.vmi 0 30 []) eq_refl)).
    reflexivity.
Defined.

(** *** MachineSet.to_dict and MachineSet.scale_replicas *)

Section Manifest.
Variable api_group : string.
Variable yaml_file : option string.
Variable super_to_dict : M MachineSet.t (gmap string pyobj).
Variable instance_at : nat → api_error + MachineSet.Instance.t.
Variable update_at : gmap string pyobj → nat → api_error + unit.
Variable cost : nat → nat.
Variable default_exceptions : exn → bool.

Local Abbreviation label := (MachineSet.label api_group).
Local Abbreviation metadata_labels := (MachineSet.metadata_labels api_group).
Local Abbreviation match_labels := (MachineSet.match_labels api_group).
Local Abbreviation template_labels := (MachineSet.template_labels api_group).
Local Abbreviation spec_of := (MachineSet.spec_of api_group).
Local Abbreviation to_dict := (MachineSet.to_dict api_group yaml_file super_to_dict).
Local Abbreviation scale_replicas :=
  (MachineSet.scale_replicas super_to_dict instance_at update_at cost default_exceptions).
Local Abbreviation after_one w :=
  (World (this w) (S (calls w)) (clock w + cost (calls w)) (logs w)).

Implicit Types (w : world MachineSet.t) (self : MachineSet.t).
Implicit Types (base res metadata : gmap string pyobj).

Lemma label_ne (a b : string) : a ≠ b → label a ≠ label b.
Proof.
  intros Hne Heq. apply Hne. unfold MachineSet.label in Heq.
  apply append_inj_r in Heq. by apply append_inj_r in Heq.
Qed.

Lemma match_labels_in_template self : match_labels self ⊆ template_labels self.
Proof.
  apply map_subseteq_spec. intros key value.
  unfold MachineSet.match_labels, MachineSet.template_labels, dict_display. simpl.
  pose proof (label_ne "cluster-api-machineset" "cluster-api-cluster").
  pose proof (label_ne "cluster-api-machineset" "cluster-api-machine-role").
  pose proof (label_ne "cluster-api-machineset" "cluster-api-machine-type").
  pose proof (label_ne "cluster-api-machine-type" "cluster-api-cluster").
  pose proof (label_ne "cluster-api-machine-role" "cluster-api-cluster").
  rewrite !lookup_insert. repeat case_decide; subst; naive_solver.
Qed.

Lemma metadata_labels_in_template self : metadata_labels self ⊆ template_labels self.
Proof.
  apply map_subseteq_spec. intros key value.
  unfold MachineSet.metadata_labels, MachineSet.template_labels, dict_display. simpl.
  pose proof (label_ne "cluster-api-machineset" "cluster-api-cluster").
  pose proof (label_ne "cluster-api-machineset" "cluster-api-machine-role").
  pose proof (label_ne "cluster-api-machineset" "cluster-api-machine-type").
  rewrite !lookup_insert. repeat case_decide; subst; naive_solver.
Qed.

(** What [to_dict] does once the base class has given its manifest. *)
Lemma to_dict_run w base w0 :
  super_to_dict w = (Ret base, w0) →
  to_dict w
  = if MachineSet.truthy_str yaml_file then (Ret base, w0)
    else match base !! "metadata" with
         | None => (Raise (KeyError "metadata"), w0)
         | Some (Val _) => (Raise TypeError, w0)
         | Some (Dict metadata) =>
             (Ret (<["spec" := Dict (spec_of (this w0))]>
                     (<["metadata" := Dict (<["labels" := Dict (metadata_labels (this w0))]>
                                              metadata)]> base)), w0)
         end.
Proof.
  intros Hbase. unfold MachineSet.to_dict, bind, get_self. rewrite Hbase.
  destruct (MachineSet.truthy_str yaml_file); [done|].
  by destruct (base !! "metadata") as [[v|metadata]|].
Qed.

Lemma spec_of_lookups self :
  spec_of self !! "replicas" = Some (Val (PyInt (MachineSet.replicas self))) ∧
  lookup_path ["selector"; "matchLabels"] (Dict (spec_of self)) = Some (Dict (match_labels self)) ∧
  lookup_path ["template"; "metadata"; "labels"] (Dict (spec_of self))
    = Some (Dict (template_labels self)) ∧
  lookup_path ["template"; "spec"; "providerSpec"] (Dict (spec_of self))
    = Some (Dict (Val <$> MachineSet.provider_spec self)).
Proof.
  unfold MachineSet.spec_of, dict_display. simpl. repeat split; by simplify_map_eq.
Qed.

(** X1: the manifest is consistent: every label of the selector and every label
    of the machine set itself is a label of the machine template, with the
    same value, so that the selector selects the machines of the template. *)
Theorem to_dict_selector_matches_template w res w1 :
  MachineSet.truthy_str yaml_file = false →
  to_dict w = (Ret res, w1) →
  ∃ selector template labels : gmap string pyobj,
    lookup_path ["spec"; "selector"; "matchLabels"] (Dict res) = Some (Dict selector) ∧
    lookup_path ["spec"; "template"; "metadata"; "labels"] (Dict res) = Some (Dict template) ∧
    lookup_path ["metadata"; "labels"] (Dict res) = Some (Dict labels) ∧
    selector ⊆ template ∧ labels ⊆ template ∧
    selector !! label "cluster-api-machineset" = template !! label "cluster-api-machineset" ∧
    is_Some (selector !! label "cluster-api-machineset").
Proof.
  intros Hyaml. destruct (super_to_dict w) as [[base|e|] w0] eqn:Hbase.
  - rewrite (to_dict_run _ _ _ Hbase), Hyaml.
    destruct (base !! "metadata") as [[v|metadata]|]; [done| |done].
    intros [= <- <-].
    destruct (spec_of_lookups (this w0)) as (_ & Hsel & Htmpl & _).
    exists (match_labels (this w0)), (template_labels (this w0)), (metadata_labels (this w0)).
    split; [|split; [|split; [|split; [|split; [|split]]]]].
    + by rewrite (lookup_path_cons "spec" _ _ (Dict (spec_of (this w0)))) by apply lookup_insert_eq.
    + by rewrite (lookup_path_cons "spec" _ _ (Dict (spec_of (this w0)))) by apply lookup_insert_eq.
    + erewrite lookup_path_cons;
        [|rewrite lookup_insert_ne by done; apply lookup_insert_eq].
      rewrite lookup_path_one. apply lookup_insert_eq.
    + apply match_labels_in_template.
    + apply metadata_labels_in_template.
    + unfold MachineSet.match_labels, MachineSet.template_labels, dict_display. simpl.
      by rewrite !lookup_insert_eq.
    + unfold MachineSet.match_labels, dict_display. simpl. rewrite lookup_insert_eq. eauto.
  - unfold MachineSet.to_dict, bind. by rewrite Hbase.
  - unfold MachineSet.to_dict, bind. by rewrite Hbase.
Qed.

(** X2: to_dict hands the manifest of the base class back untouched when the
    wrapper was built from a YAML file; otherwise it needs a [metadata] dict
    in it (KeyError without), keeps every top-level key other than
    [metadata] and [spec] and every key of [metadata] other than [labels],
    and replaces the labels and the spec of the base manifest instead of
    merging into them. *)
Theorem to_dict_keeps_the_rest w base w0 :
  super_to_dict w = (Ret base, w0) →
  (MachineSet.truthy_str yaml_file = true → to_dict w = (Ret base, w0)) ∧
  (MachineSet.truthy_str yaml_file = false →
   (base !! "metadata" = None → to_dict w = (Raise (KeyError "metadata"), w0)) ∧
   (∀ metadata, base !! "metadata" = Some (Dict metadata) →
      ∃ res, to_dict w = (Ret res, w0) ∧
        (∀ key, key ≠ "metadata" → key ≠ "spec" → res !! key = base !! key) ∧
        (∀ key, key ≠ "labels" →
           lookup_path ["metadata"; key] (Dict res) = metadata !! key) ∧
        lookup_path ["metadata"; "labels"] (Dict res)
          = Some (Dict (metadata_labels (this w0))) ∧
        res !! "spec" = Some (Dict (spec_of (this w0))))).
Proof.
  intros Hbase. rewrite (to_dict_run _ _ _ Hbase). split.
  - by intros ->.
  - intros ->. split.
    + by intros ->.
    + intros metadata ->. eexists. split; [done|]. repeat split.
      * intros key Hm Hs. by rewrite !lookup_insert_ne by done.
      * intros key Hl. erewrite lookup_path_cons;
          [|rewrite lookup_insert_ne by done; apply lookup_insert_eq].
        rewrite lookup_path_one. by rewrite lookup_insert_ne by done.
      * erewrite lookup_path_cons;
          [|rewrite lookup_insert_ne by done; apply lookup_insert_eq].
        rewrite lookup_path_one. apply lookup_insert_eq.
      * apply lookup_insert_eq.
Qed.

(** X3: scale_replicas reads the desired count for its log line before it sends
    anything: when that read fails no update is sent; when the update fails
    no wait is started; with wait=False and both accepted it returns True
    after these two requests. *)
Theorem scale_replicas_order fuel replicas wait_timeout sleep wait w base w0 :
  super_to_dict w = (Ret base, w0) →
  (∀ e, instance_at (calls w0) = inl e →
     scale_replicas fuel replicas wait_timeout sleep wait w
     = (Raise (exn_of_api e), after_one w0)) ∧
  (∀ inst st e,
     instance_at (calls w0) = inr inst →
     MachineSet.Instance.status inst = Some st →
     update_at (<["spec" := Dict (dict_display [("replicas", Val (PyInt replicas))])]> base)
       (S (calls w0)) = inl e →
     scale_replicas fuel replicas wait_timeout sleep wait w
     = (Raise (exn_of_api e),
        World (this w0) (S (S (calls w0))) (clock w0 + cost (calls w0) + cost (S (calls w0)))
          (logs w0 ++ [(INFO, MachineSet.scale_message
                                (MachineSet.Instance.replicas st) replicas)]))) ∧
  (∀ inst st,
     instance_at (calls w0) = inr inst →
     MachineSet.Instance.status inst = Some st →
     update_at (<["spec" := Dict (dict_display [("replicas", Val (PyInt replicas))])]> base)
       (S (calls w0)) = inr () →
     wait = false →
     scale_replicas fuel replicas wait_timeout sleep wait w
     = (Ret true,
        World (this w0) (S (S (calls w0))) (clock w0 + cost (calls w0) + cost (S (calls w0)))
          (logs w0 ++ [(INFO, MachineSet.scale_message
                                (MachineSet.Instance.replicas st) replicas)]))).
Proof.
  intros Hbase.
  unfold MachineSet.scale_replicas, MachineSet.desired_replicas, MachineSet.instance,
    MachineSet.status_of, MachineSet.update, bind, api_call, log, ret.
  rewrite Hbase. repeat split.
  - intros e He. by rewrite He.
  - intros inst st e Hinst Hst He.
    rewrite Hinst, Hst. cbn [calls clock this logs]. by rewrite He.
  - intros inst st Hinst Hst Hup ->.
    rewrite Hinst, Hst. cbn [calls clock this logs]. by rewrite Hup.
Qed.

(** X4: scale_replicas never writes the new count into the wrapper: whatever it
    is asked for and however it ends, the [replicas] attribute is the old
    one, so that the manifest built by to_dict afterwards still carries the
    count the wrapper was created with. *)
Theorem scale_replicas_leaves_replicas_stale fuel replicas wait_timeout sleep wait w :
  keeps_self super_to_dict →
  MachineSet.truthy_str yaml_file = false →
  this (snd (scale_replicas fuel replicas wait_timeout sleep wait w)) = this w ∧
  ∀ res w1,
    to_dict (snd (scale_replicas fuel replicas wait_timeout sleep wait w)) = (Ret res, w1) →
    lookup_path ["spec"; "replicas"] (Dict res)
    = Some (Val (PyInt (MachineSet.replicas (this w)))).
Proof.
  intros Hsuper Hyaml.
  assert (Hkeeps : keeps_self (scale_replicas fuel replicas wait_timeout sleep wait)).
  { pose proof (machineset_wait_for_replicas_frame instance_at cost default_exceptions
                  fuel wait_timeout sleep) as [? _].
    pose proof (machineset_desired_replicas_frame instance_at cost) as [? _].
    unfold MachineSet.scale_replicas, MachineSet.update. frame. }
  split; [apply Hkeeps|].
  set (w' := snd (scale_replicas fuel replicas wait_timeout sleep wait w)).
  assert (Hthis : this w' = this w) by apply Hkeeps.
  intros res w1. destruct (super_to_dict w') as [[base|e|] w0] eqn:Hbase.
  - rewrite (to_dict_run _ _ _ Hbase), Hyaml.
    assert (Hw0 : this w0 = this w).
    { pose proof (Hsuper w') as H. rewrite Hbase in H. simpl in H. congruence. }
    destruct (base !! "metadata") as [[v|metadata]|]; [done| |done].
    intros [= <- <-].
    erewrite lookup_path_cons; [|apply lookup_insert_eq].
    rewrite lookup_path_one, <- Hw0. apply spec_of_lookups.
  - unfold MachineSet.to_dict, bind. by rewrite Hbase.
  - unfold MachineSet.to_dict, bind. by rewrite Hbase.
Qed.
End Manifest.

(** The manifest of [workers] built on the manifest of the base class. *)
Lemma to_dict_selector_matches_template_witness :
  ∃ res,
    MachineSet.to_dict "machine.openshift.io" None Scenarios.manifest_of_base
      (Scenarios.started Scenarios.workers)
    = (Ret res, Scenarios.started Scenarios.workers) ∧
    ∃ selector template labels : gmap string pyobj,
      lookup_path ["spec"; "selector"; "matchLabels"] (Dict res) = Some (Dict selector) ∧
      lookup_path ["spec"; "template"; "metadata"; "labels"] (Dict res) = Some (Dict template) ∧
      lookup_path ["metadata"; "labels"] (Dict res) = Some (Dict labels) ∧
      selector ⊆ template ∧ labels ⊆ template ∧
      selector !! MachineSet.label "machine.openshift.io" "cluster-api-machineset"
        = template !! MachineSet.label "machine.openshift.io" "cluster-api-machineset" ∧
      is_Some (selector !! MachineSet.label "machine.openshift.io" "cluster-api-machineset").
Proof.
  destruct (MachineSet.to_dict "machine.openshift.io" None Scenarios.manifest_of_base
              (Scenarios.started Scenarios.workers)) as [[res|e|] w1] eqn:Hrun;
    try (vm_compute in Hrun; discriminate).
  assert (w1 = Scenarios.started Scenarios.workers) as ->.
  { unfold MachineSet.to_dict, bind, Scenarios.manifest_of_base, ret, get_self in Hrun.
    simpl in Hrun. destruct (Scenarios.base_manifest !! "metadata") as [[?|?]|];
      by inversion Hrun. }
  exists res. split; [done|].
  by apply (to_dict_selector_matches_template "machine.openshift.io" None
              Scenarios.manifest_of_base (Scenarios.started Scenarios.workers) res
              (Scenarios.started Scenarios.workers)).
Defined.

(** A base manifest without metadata. *)
Lemma to_dict_keeps_the_rest_witness :
  MachineSet.to_dict "machine.openshift.io" None Scenarios.manifest_without_metadata
    (Scenarios.started Scenarios.workers)
  = (Raise (KeyError "metadata"), Scenarios.started Scenarios.workers).
Proof.
  apply (proj1 (proj2 (to_dict_keeps_the_rest "machine.openshift.io" None
                         Scenarios.manifest_without_metadata
                         (Scenarios.started Scenarios.workers) _ _ eq_refl)
                      eq_refl)).
  vm_compute. reflexivity.
Defined.

(** Scaling while the API server answers 404: the read for the log line is
    the only request. *)
Lemma scale_replicas_order_witness :
  MachineSet.scale_replicas Scenarios.manifest_of_base Scenarios.not_found Scenarios.accepted
    Scenarios.instant Scenarios.retries_nothing 10 5 300 1 true
    (Scenarios.started Scenarios.workers)
  = (Raise (ApiException 404), World Scenarios.workers 1 0 []).
Proof.
  apply (proj1 (scale_replicas_order Scenarios.manifest_of_base Scenarios.not_found
                  Scenarios.accepted Scenarios.instant Scenarios.retries_nothing
                  10 5 300 1 true (Scenarios.started Scenarios.workers) _ _ eq_refl)
               (api_exception 404)).
  reflexivity.
Defined.

(** [workers] was created with two replicas and is scaled to five. *)
Lemma scale_replicas_leaves_replicas_stale_witness :
  MachineSet.replicas
    (this (snd (MachineSet.scale_replicas Scenarios.manifest_of_base
                  Scenarios.ready_at_third_read Scenarios.accepted Scenarios.instant
                  Scenarios.retries_nothing 10 5 300 1 false
                  (Scenarios.started Scenarios.workers))))
  = 2%Z.
Proof.
  rewrite (proj1 (scale_replicas_leaves_replicas_stale "machine.openshift.io" None
                    Scenarios.manifest_of_base Scenarios.ready_at_third_read
                    Scenarios.accepted Scenarios.instant Scenarios.retries_nothing
                    10 5 300 1 false (Scenarios.started Scenarios.workers)
                    (λ w, eq_refl) eq_refl)).
  reflexivity.
Defined.

(** *** MachineSet.wait_for_replicas on particular machine sets *)

Section MachineSetEdges.
Variable instance_at : nat → api_error + MachineSet.Instance.t.
Variable cost : nat → nat.
Variable default_exceptions : exn → bool.

Local Abbreviation ready_replicas := (MachineSet.ready_replicas instance_at cost).
Local Abbreviation desired_replicas := (MachineSet.desired_replicas instance_at cost).
Local Abbreviation reached := (MachineSet.reached instance_at cost).
Local Abbreviation samples := (MachineSet.samples instance_at cost default_exceptions).
Local Abbreviation wait_for_replicas :=
  (MachineSet.wait_for_replicas instance_at cost default_exceptions).
Local Abbreviation after_one w :=
  (World (this w) (S (calls w)) (clock w + cost (calls w)) (logs w)).

Implicit Types (w : world MachineSet.t).

Lemma desired_replicas_ret w v w1 :
  desired_replicas w = (Ret v, w1) →
  ∃ inst st, instance_at (calls w) = inr inst ∧
             MachineSet.Instance.status inst = Some st ∧
             MachineSet.Instance.replicas st = v.
Proof.
  unfold MachineSet.desired_replicas, MachineSet.instance, MachineSet.status_of,
    bind, api_call, ret, raise.
  destruct (instance_at (calls w)) as [e|inst]; [done|].
  destruct (MachineSet.Instance.status inst) as [st|] eqn:Hst; [|done].
  intros [= <- _]. eauto.
Qed.

Lemma status_read_run w inst st :
  instance_at (calls w) = inr inst →
  MachineSet.Instance.status inst = Some st →
  ready_replicas w = (Ret (MachineSet.Instance.readyReplicas st), after_one w) ∧
  desired_replicas w = (Ret (MachineSet.Instance.replicas st), after_one w).
Proof.
  intros Hinst Hst.
  unfold MachineSet.ready_replicas, MachineSet.desired_replicas, MachineSet.instance,
    MachineSet.status_of, bind, api_call, ret.
  by rewrite Hinst, Hst.
Qed.

(** X5: a machine set that wants no replica can not be waited for: as long as
    every read reports a desired count of 0, wait_for_replicas never returns
    True, because a ready count of 0 counts as not ready; when every read
    succeeds and the sampler sleeps, it returns False at the deadline. *)
Theorem wait_for_replicas_scaled_to_zero fuel timeout sleep w :
  ((∀ i inst st, instance_at i = inr inst →
                 MachineSet.Instance.status inst = Some st →
                 MachineSet.Instance.replicas st = Some 0%Z) →
   fst (wait_for_replicas fuel timeout sleep w) ≠ Ret true) ∧
  ((∀ i, ∃ inst st, instance_at i = inr inst ∧
                    MachineSet.Instance.status inst = Some st ∧
                    MachineSet.Instance.replicas st = Some 0%Z) →
   0 < sleep → timeout < fuel →
   fst (wait_for_replicas fuel timeout sleep w) = Ret false).
Proof.
  split.
  - intros Hzero. rewrite wait_for_replicas_unfold.
    destruct (sample_loop _ _ _ _ _) as [r w1] eqn:Hloop.
    destruct r as [[|]|e|]; simpl; try done.
    + apply sample_loop_inv in Hloop as (n & w_n & _ & _ & Hstop); [|done].
      apply machineset_sample_once_stop_inv in Hstop
        as [(_ & z & w2 & _ & Hz & Hd)|[(e & [=] & _)|([=] & _)]].
      apply desired_replicas_ret in Hd as (inst & st & Hinst & Hst & Hrep).
      rewrite (Hzero _ _ _ Hinst Hst) in Hrep. congruence.
    + destruct e; try done.
      destruct (MachineSet.on_timeout instance_at cost w1) as [r w2] eqn:Hh.
      by apply on_timeout_inv in Hh as (_ & _ & ? & _).
  - intros Hzero Hsleep Hfuel. rewrite wait_for_replicas_unfold.
    assert (Hreads : ∀ w0, ∃ ready, ready_replicas w0 = (Ret ready, after_one w0) ∧
                                    desired_replicas w0 = (Ret (Some 0%Z), after_one w0)).
    { intros w0. destruct (Hzero (calls w0)) as (inst & st & Hinst & Hst & Hrep).
      destruct (status_read_run _ _ _ Hinst Hst) as [Hr Hd]. rewrite Hrep in Hd. eauto. }
    destruct (sample_loop_expires (samples timeout sleep) (clock w) reached)
      with (fuel := fuel) (w := w) as (w' & Hloop); simpl; [done| |lia|lia|].
    { intros w0. destruct (Hreads w0) as (ready & Hr & _).
      unfold sample_once. simpl. rewrite Hr. unfold MachineSet.reached.
      destruct (truthy_int ready) eqn:Htruthy.
      - destruct (Hreads (after_one w0)) as (_ & _ & Hd).
        unfold bind. rewrite Hd.
        rewrite bool_decide_eq_false_2.
        + eexists. split; [|done]. simpl. lia.
        + intros ->. done.
      - eexists. split; [|done]. simpl. lia. }
    rewrite Hloop.
    destruct (Hreads w') as (ready & Hr & _).
    destruct (Hreads (after_one w')) as (_ & _ & Hd).
    unfold MachineSet.on_timeout, get_self, bind, log, ret. by rewrite Hr, Hd.
Qed.

End MachineSetEdges.

(** A machine set scaled to zero: after two seconds the wait gives up. *)
Lemma wait_for_replicas_scaled_to_zero_witness :
  fst (MachineSet.wait_for_replicas Scenarios.scaled_to_zero Scenarios.instant
         Scenarios.retries_nothing 10 2 1 (Scenarios.started Scenarios.workers))
  = Ret false.
Proof.
  apply (proj2 (wait_for_replicas_scaled_to_zero Scenarios.scaled_to_zero Scenarios.instant
                  Scenarios.retries_nothing 10 2 1 (Scenarios.started Scenarios.workers)));
    [|lia|lia].
  intros i. eexists _, _. split; [reflexivity|]. split; reflexivity.
Defined.


(** *** VirtualMachine.start and VirtualMachine.stop *)

Section StartStop.
Variable get_at : nat → api_error + list VirtualMachine.Instance.t.
Variable instance_at : nat → api_error + VirtualMachine.Instance.t.
Variable request_at : nat → api_error + unit.
Variable cost : nat → nat.
Variable vmi_wait_deleted : M VirtualMachine.t bool.

Local Abbreviation api_get := (VirtualMachine.api_get get_at cost).
Local Abbreviation ready := (VirtualMachine.ready instance_at cost).
Local Abbreviation reached := (VirtualMachine.reached instance_at cost).
Local Abbreviation samples := (VirtualMachine.samples get_at cost).
Local Abbreviation wait_for_status := (VirtualMachine.wait_for_status get_at instance_at cost).
Local Abbreviation start := (VirtualMachine.start get_at instance_at request_at cost).
Local Abbreviation stop :=
  (VirtualMachine.stop get_at instance_at request_at cost vmi_wait_deleted).
Local Abbreviation after_one w :=
  (World (this w) (S (calls w)) (clock w + cost (calls w)) (logs w)).

Implicit Types (w : world VirtualMachine.t).

(** wait_for_status returns only from a sample that has items, right after
    ready() has returned the awaited status. *)
Lemma wait_for_status_returns_inv fuel status timeout w w' :
  wait_for_status fuel status timeout w = (Ret (), w') →
  ∃ w1, ready w1 = (Ret status, w').
Proof.
  rewrite wait_for_status_unfold. intros Hloop.
  apply sample_loop_inv in Hloop as (n & w_n & _ & _ & Hstop); [|done].
  unfold sample_once in Hstop. simpl in Hstop.
  destruct (api_get w_n) as [[items|e|] w1]; [| |done].
  - destruct (reached status items w1) as [r w2] eqn:Hbody.
    apply vm_reached_inv in Hbody as (_ & _ & _ & _ & Hret).
    destruct r as [[[]|]|e|]; try done.
    + injection Hstop as <-. destruct (Hret eq_refl) as [_ Hready]. eauto.
    + unfold check_deadline in Hstop. by destruct (_ <=? _).
  - destruct (only_ProtocolError e); [|done].
    unfold check_deadline in Hstop. by destruct (_ <=? _).
Qed.

(** X12: start raises the error of a refused request before any sample is taken;
    with wait=False it makes that one request and nothing else; and from
    wait=True it returns only after the request was accepted and ready() has
    returned True. *)
Theorem start_outcomes fuel timeout w :
  (∀ e wait, request_at (calls w) = inl e →
     start fuel timeout wait w = (Raise (exn_of_api e), after_one w)) ∧
  (request_at (calls w) = inr () →
     start fuel timeout false w = (Ret (), after_one w)) ∧
  (∀ w', start fuel timeout true w = (Ret (), w') →
     request_at (calls w) = inr () ∧ ∃ w1, ready w1 = (Ret (Some true), w')).
Proof.
  unfold VirtualMachine.start, VirtualMachine.request. split; [|split].
  - intros e wait He. unfold bind, api_call. by rewrite He.
  - intros Hok. unfold bind, api_call. by rewrite Hok.
  - intros w'. unfold bind at 1. unfold api_call.
    destruct (request_at (calls w)) as [e|[]]; [done|].
    intros Hwait. split; [done|]. by apply wait_for_status_returns_inv in Hwait.
Qed.

(** X13: stop(wait=True) takes only a missing [ready] for the stopped machine: as
    long as every read of the resource reports a status with [ready] set,
    be it to False, and reading the list raises at most ProtocolError, the
    wait runs into its deadline, TimeoutExpiredError is raised and the
    deletion of the instance is never waited for. *)
Theorem stop_needs_ready_to_be_missing fuel timeout w :
  request_at (calls w) = inr () →
  (∀ i code, get_at i ≠ inl (api_exception code)) →
  (∀ i, ∃ inst st b, instance_at i = inr inst ∧
                     VirtualMachine.Instance.status inst = Some st ∧
                     VirtualMachine.Instance.ready st = Some b) →
  timeout < fuel →
  ∃ w', stop fuel timeout true w = (Raise TimeoutExpiredError, w').
Proof.
  intros Hreq Hget Hinst Hfuel.
  assert (Hready : ∀ w0, ∃ b w1, ready w0 = (Ret (Some b), w1) ∧ clock w0 ≤ clock w1).
  { intros w0.
    destruct (Hinst (calls w0)) as (i1 & st1 & b1 & Hi1 & Hst1 & _).
    destruct (Hinst (S (calls w0))) as (i2 & st2 & b2 & Hi2 & Hst2 & Hb2).
    unfold VirtualMachine.ready, VirtualMachine.instance, get_self, log, bind, api_call, ret.
    cbn [calls clock this logs]. rewrite Hi1, Hst1. cbn [calls clock this logs].
    rewrite Hi2, Hst2, Hb2. eexists _, _. split; [done|]. simpl. lia. }
  set (w1 := after_one w).
  destruct (sample_loop_expires (samples timeout) (clock w1) (reached None))
    with (fuel := fuel)
         (w := World (this w1) (calls w1) (clock w1)
                 (logs w1 ++ [(INFO, VirtualMachine.wait_message (this w1) None)]))
    as (w' & Hloop); simpl; [lia| |lia|lia|].
  { intros w0. unfold sample_once. simpl.
    destruct (api_get w0) as [v w2] eqn:Hprobe. unfold VirtualMachine.api_get in Hprobe.
    apply api_call_inv in Hprobe as [Hw2 [(items & _ & ->)|(e & He & ->)]].
    - destruct items as [|item items]; simpl.
      + exists w2. split; [subst w2; simpl; lia|done].
      + destruct (Hready w2) as (b & w3 & Hr & Hclock).
        unfold bind. rewrite Hr. rewrite bool_decide_eq_false_2 by done.
        exists w3. split; [subst w2; simpl in *; lia|done].
    - destruct e as [|code]; [|by destruct (Hget _ _ He)].
      exists w2. split; [subst w2; simpl; lia|done]. }
  exists w'.
  unfold VirtualMachine.stop, VirtualMachine.request. unfold bind at 1.
  unfold api_call. rewrite Hreq. fold w1. unfold bind at 1.
  rewrite wait_for_status_unfold. by rewrite Hloop.
Qed.
End StartStop.

(** start on a cluster that refuses the request, and start(wait=False) on one
    that accepts it. *)
Lemma start_outcomes_witness :
  VirtualMachine.start (Scenarios.always [Scenarios.machine None])
    Scenarios.ready_at_fifth_request Scenarios.not_found Scenarios.instant
    10 300 true (Scenarios.started Scenarios.vm)
  = (Raise (ApiException 404), World Scenarios.vm 1 0 []) ∧
  VirtualMachine.start (Scenarios.always [Scenarios.machine None])
    Scenarios.ready_at_fifth_request (Scenarios.always ()) Scenarios.instant
    10 300 false (Scenarios.started Scenarios.vm)
  = (Ret (), World Scenarios.vm 1 0 []).
Proof.
  split.
  - apply (proj1 (start_outcomes (Scenarios.always [Scenarios.machine None])
                    Scenarios.ready_at_fifth_request Scenarios.not_found Scenarios.instant
                    10 300 (Scenarios.started Scenarios.vm))
                 (api_exception 404) true).
    reflexivity.
  - apply (proj1 (proj2 (start_outcomes (Scenarios.always [Scenarios.machine None])
                           Scenarios.ready_at_fifth_request (Scenarios.always ())
                           Scenarios.instant 10 300 (Scenarios.started Scenarios.vm)))).
    reflexivity.
Defined.

(** stop(wait=True) on a machine that keeps reporting ready: False. *)
Lemma stop_needs_ready_to_be_missing_witness :
  ∃ w', VirtualMachine.stop (Scenarios.always [Scenarios.machine (Some false)])
          (Scenarios.always (Scenarios.machine (Some false))) (Scenarios.always ())
          Scenarios.instant Scenarios.deleted_at_once 10 2 true
          (Scenarios.started Scenarios.vm)
        = (Raise TimeoutExpiredError, w').
Proof.
  apply (stop_needs_ready_to_be_missing (Scenarios.always [Scenarios.machine (Some false)])
           (Scenarios.always (Scenarios.machine (Some false))) (Scenarios.always ())
           Scenarios.instant Scenarios.deleted_at_once 10 2
           (Scenarios.started Scenarios.vm)).
  - reflexivity.
  - intros i code. discriminate.
  - intros i. eexists _, _, _. split; [reflexivity|]. split; reflexivity.
  - lia.
Defined.

(** *** VirtualMachineInstance.wait_for_pause_status *)

Section PauseWait.
Variable instance_at : nat → api_error + VirtualMachineInstance.Instance.t.
Variable pods_at : string → string → nat → api_error + list Pod.t.
Variable execute_at : Pod.t → list string → string → nat → api_error + string.
Variable cost : nat → nat.

Local Abbreviation wait_for_domstate_pause_status :=
  (VirtualMachineInstance.wait_for_domstate_pause_status instance_at pods_at execute_at cost).
Local Abbreviation get_vmi_active_condition :=
  (VirtualMachineInstance.get_vmi_active_condition instance_at cost).
Local Abbreviation wait_for_pause_status :=
  (VirtualMachineInstance.wait_for_pause_status instance_at pods_at execute_at cost).
(** The world once [wait_for_pause_status] has written its log line. *)
Local Abbreviation announced pause w :=
  (World (this w) (calls w) (clock w)
     (logs w ++ [(INFO, VirtualMachineInstance.pause_message (this w) pause)])).

Implicit Types (w : world VirtualMachineInstance.t).

(** X14: waiting for the unpaused state is waiting for the domain only: once
    [virsh domstate] has said running, wait_for_pause_status(pause=False)
    returns with the first read of the conditions that succeeds, whatever the
    conditions are: the passes before it are reads that raised ProtocolError
    before the deadline. When the domstate wait fails, its error is the
    outcome and the conditions are never read. *)
Theorem unpause_wait_ignores_conditions fuel timeout w :
  (∀ n w1 w_n sample w2,
     wait_for_domstate_pause_status fuel false timeout (announced false w) = (Ret (), w1) →
     advance n (VirtualMachineInstance.samples instance_at cost timeout) (clock w1)
       (VirtualMachineInstance.reached false) w1 = Some w_n →
     get_vmi_active_condition w_n = (Ret sample, w2) →
     n < fuel →
     wait_for_pause_status fuel false timeout w = (Ret (), w2)) ∧
  (∀ t0 w0 w',
     sample_once (VirtualMachineInstance.samples instance_at cost timeout) t0
       (VirtualMachineInstance.reached false) w0 = Next w' →
     fst (get_vmi_active_condition w0) = Raise ProtocolError ∧
     clock (snd (get_vmi_active_condition w0)) - t0 < timeout) ∧
  (∀ e w1,
     wait_for_domstate_pause_status fuel false timeout (announced false w) = (Raise e, w1) →
     wait_for_pause_status fuel false timeout w = (Raise e, w1)).
Proof.
  unfold VirtualMachineInstance.wait_for_pause_status, get_self, log.
  split; [|split].
  - intros n w1 w_n sample w2 Hdom Hadv Hcond Hfuel. unfold bind. cbn [this]. rewrite Hdom.
    by apply (unpause_wait_returns_on_first_sample instance_at cost fuel timeout
                n w1 w_n sample w2).
  - intros t0 w0 w'. unfold sample_once. cbn [func VirtualMachineInstance.samples].
    destruct (get_vmi_active_condition w0) as [[sample|e|] w1]; [| |done].
    + by rewrite pause_reached_unfold.
    + cbn [fst snd].
      destruct (check_deadline_cases (R:=unit)
                  (VirtualMachineInstance.samples instance_at cost timeout) t0 w1)
        as [[_ Hcheck]|[Hearly Hcheck]]; rewrite Hcheck; destruct e; simpl; done.
  - intros e w1 Hdom. unfold bind. cbn [this]. by rewrite Hdom.
Qed.
End PauseWait.

(** The domain runs from the second sample on. The first read of the
    conditions breaks and is retried a second later; the second one finds
    the instance with its Paused condition, which the wait does not look at. *)
Lemma unpause_wait_ignores_conditions_witness :
  VirtualMachineInstance.wait_for_pause_status
    Scenarios.paused_with_one_broken_read
    (Scenarios.listing [Scenarios.launcher "virt-launcher-vm-1-a"])
    Scenarios.resumes_after_first_pass Scenarios.instant
    10 false 300 (Scenarios.started Scenarios.vmi)
  = (Ret (),
     World Scenarios.vmi 10 2 [(INFO, "Wait until VirtualMachineInstance vm-1 is Unpuased")]).
Proof.
  apply (proj1 (unpause_wait_ignores_conditions
                  Scenarios.paused_with_one_broken_read
                  (Scenarios.listing [Scenarios.launcher "virt-launcher-vm-1-a"])
                  Scenarios.resumes_after_first_pass Scenarios.instant
                  10 300 (Scenarios.started Scenarios.vmi))
               1
               (World Scenarios.vmi 8 1
                  [(INFO, "Wait until VirtualMachineInstance vm-1 is Unpuased")])
               (World Scenarios.vmi 9 2
                  [(INFO, "Wait until VirtualMachineInstance vm-1 is Unpuased")])
               (VirtualMachineInstance.active_condition [Scenarios.paused_condition]));
    [reflexivity|reflexivity|reflexivity|lia].
Defined.
